(** * Bias-variance estimation (bias-variance.ipynb): a shallow embedding

    The notebook defines an abstract [HypothesisSpace] (methods [train]
    and [assign]), the estimator class [BiasVariance] and two
    degree-10 polynomial model families built on scikit-learn.

    Numbers are IEEE-754 binary64 values (numpy's float64), modelled by
    the standard library's [spec_float] with 53 bits of precision.
    numpy arrays that the program mutates in place (the parameter
    vectors) live in a store indexed by locations, so that aliasing is
    visible; arrays that are only read are plain lists.  The global
    pseudo-random generator is a component of the program state. *)

From Stdlib Require Import ZArith List Bool Lia.
From Stdlib Require Import Floats.SpecFloat.
From stdpp Require Import base option list gmap.

Local Open Scope Z_scope.

(** ** binary64 arithmetic *)

Module F64.

Definition prec : Z := 53.
Definition emax : Z := 1024.

Definition float : Type := spec_float.

Definition add : float -> float -> float := SFadd prec emax.
Definition sub : float -> float -> float := SFsub prec emax.
Definition mul : float -> float -> float := SFmul prec emax.
Definition div : float -> float -> float := SFdiv prec emax.
Definition opp : float -> float := SFopp.
Definition eqb : float -> float -> bool := SFeqb.
Definition ltb : float -> float -> bool := SFltb.
Definition leb : float -> float -> bool := SFleb.

(** Conversion of a Python int to a float (exact for the small
    constants of the program). *)
Definition of_Z (z : Z) : float := binary_normalize prec emax z 0 false.

Definition zero : float := S754_zero false.

(** The literal [0.01]: the binary64 number nearest to 1/100,
    [0x3F847AE147AE147B]. *)
Definition lit_0_01 : float := S754_finite false 5764607523034235 (-59).

Definition is_nan (x : float) : bool :=
  match x with S754_nan => true | _ => false end.

(** numpy's [isfinite]. *)
Definition is_finite (x : float) : bool :=
  match x with
  | S754_zero _ | S754_finite _ _ _ => true
  | S754_infinity _ | S754_nan => false
  end.

(** The ceiling of a finite float, as an integer ([m * 2^e] rounded
    towards plus infinity); [None] for infinities and NaN. *)
Definition ceil (x : float) : option Z :=
  match x with
  | S754_zero _ => Some 0
  | S754_finite s m e =>
      let z := cond_Zopp s (Zpos m) in
      Some match e with
           | Zneg p => - ((- z) `div` 2 ^ Zpos p)
           | _ => z * 2 ^ e
           end
  | _ => None
  end.

(** [x ** 2] on an array element: numpy squares by one multiplication. *)
Definition square (x : float) : float := mul x x.

(** The product of [k] copies of [x], multiplied left to right, as
    [PolynomialFeatures] forms the column of degree [k]. *)
Fixpoint pow (x : float) (k : nat) : float :=
  match k with
  | O => of_Z 1
  | S O => x
  | S k' => mul (pow x k') x
  end.

End F64.

Abbreviation float := F64.float.

Declare Scope float_scope.
Delimit Scope float_scope with flt.
Infix "+" := F64.add : float_scope.
Infix "-" := F64.sub : float_scope.
Infix "*" := F64.mul : float_scope.
Infix "/" := F64.div : float_scope.

(** ** Exceptions and the state monad *)

(** The Python exceptions that the modelled code can raise.  [TypeError]
    also covers the use of a name that does not hold an array. *)
Inductive exn : Type :=
  IndexError | ValueError | TypeError | NotImplementedError.

Inductive result (A : Type) : Type :=
  | Ok (a : A)
  | Raise (e : exn).
Arguments Ok {A} a.
Arguments Raise {A} e.

Definition result_bind {A B : Type} (r : result A) (k : A -> result B) : result B :=
  match r with
  | Ok a => k a
  | Raise e => Raise e
  end.

Definition result_map {A B : Type} (f : A -> B) (r : result A) : result B :=
  result_bind r (fun a => Ok (f a)).

(** A computation over a state of type [S] that returns an [A] or
    raises. *)
Definition ST (S A : Type) : Type := S -> result (A * S).

Definition ret {S A : Type} (a : A) : ST S A := fun s => Ok (a, s).

Definition raise {S A : Type} (e : exn) : ST S A := fun _ => Raise e.

Definition bind {S A B : Type} (c : ST S A) (k : A -> ST S B) : ST S B :=
  fun s => match c s with
           | Ok (a, s') => k a s'
           | Raise e => Raise e
           end.

(** A computation that cannot change the state. *)
Definition of_result {S A : Type} (r : result A) : ST S A :=
  fun s => result_map (fun a => (a, s)) r.

Notation "'let*' x := c 'in' k" := (bind c (fun x => k))
  (at level 10, x name, c at level 100, k at level 200).
Notation "'let*' ' p := c 'in' k" := (bind c (fun x => match x with p => k end))
  (at level 10, p pattern, c at level 100, k at level 200).
Notation "'run*' c 'in' k" := (bind c (fun _ => k))
  (at level 10, c at level 100, k at level 200).

(** [for i in l: acc = body(i, acc)]. *)
Fixpoint for_each {S I A : Type} (l : list I) (body : I -> A -> ST S A) (acc : A) : ST S A :=
  match l with
  | [] => ret acc
  | i :: l' => let* acc' := body i acc in for_each l' body acc'
  end.

(** Python's [range(n)]. *)
Definition range (n : nat) : list nat := seq 0 n.

(** ** The store of mutable arrays *)

Definition loc : Type := positive.

Abbreviation store := (gmap loc (list float)).

(** A new array object: it gets a location that no live array has. *)
Definition alloc (v : list float) : ST store loc :=
  fun σ => let l := fresh (dom σ) in Ok (l, <[l := v]> σ).

Definition load (l : loc) : ST store (list float) :=
  fun σ => match σ !! l with
           | Some v => Ok (v, σ)
           | None => Raise TypeError
           end.

Definition store_at (l : loc) (v : list float) : ST store unit :=
  fun σ => Ok (tt, <[l := v]> σ).

(** ** numpy *)

(** Element-wise binary operation on one-dimensional arrays, with
    numpy's broadcasting of an array of length one. *)
Definition broadcast (f : float -> float -> float) (a b : list float) : result (list float) :=
  if decide (length a = length b) then Ok (zip_with f a b)
  else match a, b with
       | [x], _ => Ok (map (f x) b)
       | _, [y] => Ok (map (fun x => f x y) a)
       | _, _ => Raise ValueError
       end.

Definition np_add : list float -> list float -> result (list float) := broadcast F64.add.
Definition np_subtract : list float -> list float -> result (list float) := broadcast F64.sub.

(** [a ** 2]. *)
Definition np_square (a : list float) : list float := map F64.square a.

(** [np.sum] of a contiguous float64 array adds the elements pairwise
    (numpy's [pairwise_sum] in the loop of [add]), not from left to
    right.  Fewer than 8 elements are added one after the other,
    starting from [0.]. *)
Definition sum_sequential (res : float) (a : list float) : float :=
  fold_left F64.add a res.

(** Up to 128 elements are added with 8 accumulators: [r[j]] starts as
    [a[j]], and [r[j] += a[i + j]] for every further whole group of 8. *)
Fixpoint add_groups (groups : nat) (r a : list float) : list float * list float :=
  match groups with
  | O => (r, a)
  | S k => add_groups k (zip_with F64.add r (take 8 a)) (drop 8 a)
  end.

(** The accumulators are then added as
    [((r0 + r1) + (r2 + r3)) + ((r4 + r5) + (r6 + r7))], and the elements
    after the last whole group one after the other. *)
Definition sum_block (a : list float) : float :=
  let '(r, rest) := add_groups (length a / 8 - 1) (take 8 a) (drop 8 a) in
  match r with
  | [r0; r1; r2; r3; r4; r5; r6; r7] =>
      sum_sequential (((r0 + r1) + (r2 + r3)) + ((r4 + r5) + (r6 + r7)))%flt rest
  | _ => sum_sequential F64.zero a
  end.

Definition PW_BLOCKSIZE : nat := 128.

(** More than 128 elements are split after [n2] elements, [n2] being
    [n / 2] rounded down to a multiple of 8, and the sums of the two
    parts are added.  [fuel] bounds the depth of the splitting; the
    length of the array is enough. *)
Fixpoint pairwise_sum_rec (fuel : nat) (a : list float) : float :=
  if (length a <? 8)%nat then sum_sequential F64.zero a
  else if (length a <=? PW_BLOCKSIZE)%nat then sum_block a
  else match fuel with
       | O => sum_sequential F64.zero a
       | S fuel' =>
           let n2 := (length a / 2 - (length a / 2) mod 8)%nat in
           (pairwise_sum_rec fuel' (take n2 a) + pairwise_sum_rec fuel' (drop n2 a))%flt
       end.

Definition pairwise_sum (a : list float) : float := pairwise_sum_rec (length a) a.

(** The reduction starts from the identity [0.] of the addition and
    adds the pairwise sum of the array to it. *)
Definition np_sum (a : list float) : float := (F64.zero + pairwise_sum a)%flt.

(** [np.mean]: the sum divided by the number of elements; NaN on an
    empty array. *)
Definition np_mean (a : list float) : float :=
  (np_sum a / F64.of_Z (Z.of_nat (length a)))%flt.

(** [a[0]] on an array object: a copy of the first element. *)
Definition getitem0 (a : loc) : ST store float :=
  let* v := load a in
  match v with
  | x :: _ => ret x
  | [] => raise IndexError
  end.

(** [a[0] = x]: writes into the array object itself. *)
Definition setitem0 (a : loc) (x : float) : ST store unit :=
  let* v := load a in
  match v with
  | _ :: _ => store_at a (<[0%nat := x]> v)
  | [] => raise IndexError
  end.

(** [a += b] on array objects: the result is written into [a]; [b] may
    have the length of [a] or length one. *)
Definition np_iadd (a b : loc) : ST store unit :=
  let* va := load a in
  let* vb := load b in
  if decide (length va = length vb) then store_at a (zip_with F64.add va vb)
  else match vb with
       | [y] => store_at a (map (fun x => F64.add x y) va)
       | _ => raise ValueError
       end.

(** [a /= c] for a float [c]: every element of [a] is divided in place. *)
Definition np_idiv (a : loc) (c : float) : ST store unit :=
  let* va := load a in
  store_at a (map (fun x => F64.div x c) va).

(** [np.arange(start, stop, step)] on floats: [ceil((stop - start) / step)]
    elements; the first two are [start] and [start + step], the others
    are [start + i * delta] where [delta] is the difference of the first
    two. *)
Definition np_arange (start stop step : float) : result (list float) :=
  match F64.ceil ((stop - start) / step)%flt with
  | None => Raise ValueError
  | Some len =>
      let next := (start + step)%flt in
      let delta := (next - start)%flt in
      Ok (map (fun i => match i with
                        | O => start
                        | S O => next
                        | _ => (start + F64.of_Z (Z.of_nat i) * delta)%flt
                        end)
              (seq 0 (Z.to_nat len)))
  end.

(** [np.reshape(x, (-1, 1))]: the column with the elements of [x].  A
    column is represented by the list of its entries. *)
Definition np_reshape_column (x : list float) : list float := x.


(** ** The global pseudo-random generator

    numpy's generator is outside the notebook: its state, the state
    that [np.random.seed] installs, and the single draws of
    [np.random.uniform] and [np.random.normal] are parameters. *)

Record Generator : Type := {
  rng_state : Type;
  rng_seed : Z -> rng_state;
  rng_uniform : float -> float -> rng_state -> float * rng_state;
  rng_normal : float -> float -> rng_state -> float * rng_state;
}.

(** [size] successive draws. *)
Fixpoint draws {R : Type} (draw : R -> float * R) (size : nat) (g : R) : list float * R :=
  match size with
  | O => ([], g)
  | S n => let '(x, g1) := draw g in
           let '(xs, g2) := draws draw n g1 in
           (x :: xs, g2)
  end.

(** The program state: the arrays and the generator. *)
Definition world (G : Generator) : Type := (store * rng_state G)%type.

Section Random.
Context {G : Generator}.

(** Code that works on arrays only, run in the whole state. *)
Definition on_store {A : Type} (c : ST store A) : ST (world G) A :=
  fun w => match c w.1 with
           | Ok (a, σ) => Ok (a, (σ, w.2))
           | Raise e => Raise e
           end.

Definition on_rng {A : Type} (f : rng_state G -> A * rng_state G) : ST (world G) A :=
  fun w => let '(a, g) := f w.2 in Ok (a, (w.1, g)).

(** [np.random.seed(n)]. *)
Definition np_random_seed (n : Z) : ST (world G) unit :=
  on_rng (fun _ => (tt, rng_seed G n)).

(** [np.random.uniform(low, high, size)]. *)
Definition np_random_uniform (low high : float) (size : nat) : ST (world G) (list float) :=
  on_rng (draws (rng_uniform G low high) size).

(** [np.random.normal(loc, scale, size)]. *)
Definition np_random_normal (loc scale : float) (size : nat) : ST (world G) (list float) :=
  on_rng (draws (rng_normal G loc scale) size).
End Random.

(** ** scikit-learn *)

(** Input validation ([check_array]): at least one sample, and no NaN
    or infinity. *)
Definition check_array (rows : list (list float)) : result unit :=
  match rows with
  | [] => Raise ValueError
  | _ => if forallb (forallb F64.is_finite) rows then Ok tt else Raise ValueError
  end.

(** [PolynomialFeatures(degree).fit_transform] on a single-feature
    column: the row of a sample [v] holds the powers of [v] from 0 to
    [degree]. *)
Definition poly_row (degree : nat) (v : float) : list float :=
  map (F64.pow v) (seq 0 (S degree)).

Definition fit_transform (degree : nat) (X : list float) : result (list (list float)) :=
  result_bind (check_array (map (fun v => [v]) X)) (fun _ =>
  Ok (map (poly_row degree) X)).

(** The numerical core of a linear estimator ([LinearRegression],
    [Ridge]): from a validated design matrix and labels it computes the
    coefficients [coef_] and the intercept [intercept_].  The solver is
    outside the notebook and a parameter here. *)
Definition Trainer : Type := list (list float) -> list float -> list float * float.

(** The solver returns one coefficient per column of the design matrix. *)
Definition coef_per_column (T : Trainer) : Prop :=
  forall (A : list (list float)) (y : list float),
    length (T A y).1 = length (hd [] A).

(** [trainer.fit(X, y)]: validation of both arguments ([check_X_y]: [X]
    and [y] finite, at least one sample, as many labels as samples),
    then the solver. *)
Definition fit (T : Trainer) (A : list (list float)) (y : list float) : result (list float * float) :=
  result_bind (check_array A) (fun _ =>
  if negb (forallb F64.is_finite y) then Raise ValueError
  else if decide (length A = length y) then Ok (T A y)
  else Raise ValueError).

(** The inner product of a row with the coefficients. *)
Definition dot (row coef : list float) : float :=
  fold_left F64.add (zip_with F64.mul row coef) F64.zero.

(** A linear model object after [model.coef_ = coef] and
    [model.intercept_ = intercept]: [coef_] is the array object that was
    assigned (no copy), [intercept_] a float. *)
Record LinearModel : Type := {
  coef_ : loc;
  intercept_ : float;
}.

(** [model.predict(X)]: validation, then [X . coef_ + intercept_]; the
    product needs as many coefficients as [X] has columns.  [coef_] is
    read when the prediction is made. *)
Definition predict (model : LinearModel) (A : list (list float)) (σ : store) : result (list float) :=
  match σ !! coef_ model with
  | None => Raise TypeError
  | Some coef =>
      result_bind (check_array A) (fun _ =>
      if forallb (fun row => bool_decide (length row = length coef)) A
      then Ok (map (fun row => (dot row coef + intercept_ model)%flt) A)
      else Raise ValueError)
  end.

(** ** [HypothesisSpace] *)

(** What [assign] returns: a callable from an input array to the array
    of predictions.  It may read the arrays of the store. *)
Definition Predictor : Type := list float -> store -> result (list float).

(** The two methods of a hypothesis space.  They work on arrays; they
    have no access to the random generator. *)
Record HypothesisSpace : Type := {
  train : list float -> list float -> ST store loc;
  assign : loc -> ST store Predictor;
}.

(** The base class: both methods raise. *)
Definition HypothesisSpace_base : HypothesisSpace := {|
  train := fun _ _ => raise NotImplementedError;
  assign := fun _ => raise NotImplementedError;
|}.

(** ** The two degree-10 families *)

Section Models.
Variable LinearRegression : Trainer.
Variable Ridge : float -> Trainer.

Definition UnRegularized10thModel_train (X y : list float) : ST store loc :=
  let X := np_reshape_column X in
  let* poly_X := of_result (fit_transform 10 X) in
  let* '(trainer_coef_, trainer_intercept_) := of_result (fit LinearRegression poly_X y) in
  let* params := alloc trainer_coef_ in
  run* setitem0 params trainer_intercept_ in
  ret params.

Definition UnRegularized10thModel_assign (params : loc) : ST store Predictor :=
  let* intercept := getitem0 params in
  let coef := params in
  run* setitem0 coef F64.zero in
  let model := {| coef_ := coef; intercept_ := intercept |} in
  ret (fun x σ =>
         result_bind (fit_transform 10 (np_reshape_column x)) (fun poly_x =>
         predict model poly_x σ)).

Definition UnRegularized10thModel : HypothesisSpace := {|
  train := UnRegularized10thModel_train;
  assign := UnRegularized10thModel_assign;
|}.

Definition Regularized10thModel_train (X y : list float) : ST store loc :=
  let X := np_reshape_column X in
  let* poly_X := of_result (fit_transform 10 X) in
  let* '(trainer_coef_, trainer_intercept_) := of_result (fit (Ridge (F64.of_Z 2)) poly_X y) in
  let* params := alloc trainer_coef_ in
  run* setitem0 params trainer_intercept_ in
  ret params.

Definition Regularized10thModel_assign (params : loc) : ST store Predictor :=
  let* intercept := getitem0 params in
  let coef := params in
  run* setitem0 coef F64.zero in
  let model := {| coef_ := coef; intercept_ := intercept |} in
  ret (fun x σ =>
         result_bind (fit_transform 10 (np_reshape_column x)) (fun poly_x =>
         predict model poly_x σ)).

Definition Regularized10thModel : HypothesisSpace := {|
  train := Regularized10thModel_train;
  assign := Regularized10thModel_assign;
|}.
End Models.

(** ** [BiasVariance] *)

Record BiasVariance : Type := {
  target : list float -> list float;
  hypothesis_class : HypothesisSpace;
  sample_x : list float;
  h_bar : Predictor;
}.

Section Estimator.
Context {G : Generator}.

(** A call of a predictor, or of another function that reads the
    arrays. *)
Definition call {A : Type} (f : store -> result A) : ST (world G) A :=
  fun w => result_map (fun a => (a, w)) (f w.1).

Definition _estimate_h_bar (target : list float -> list float)
    (hypothesis_class : HypothesisSpace) : ST (world G) Predictor :=
  let datasets_mean_coef : option loc := None in
  run* np_random_seed 1 in
  let* datasets_mean_coef :=
    for_each (range 1000) (fun i datasets_mean_coef =>
      let* X := np_random_uniform (F64.of_Z (-1)) (F64.of_Z 1) 200 in
      let* noise := np_random_normal F64.zero (F64.of_Z 2) 200 in
      let* y := of_result (np_add (target X) noise) in
      let* trained_coef := on_store (train hypothesis_class X y) in
      match datasets_mean_coef with
      | None => ret (Some trained_coef)
      | Some mean_coef =>
          run* on_store (np_iadd mean_coef trained_coef) in
          ret (Some mean_coef)
      end) datasets_mean_coef in
  match datasets_mean_coef with
  | None => raise TypeError
  | Some mean_coef =>
      run* on_store (np_idiv mean_coef (F64.of_Z 1000)) in
      on_store (assign hypothesis_class mean_coef)
  end.

Definition __init__ (target : list float -> list float)
    (hypothesis_class : HypothesisSpace) : ST (world G) BiasVariance :=
  let* sample_x := of_result (np_arange (F64.of_Z (-1)) (F64.of_Z 1) F64.lit_0_01) in
  let* h_bar := _estimate_h_bar target hypothesis_class in
  ret {| target := target; hypothesis_class := hypothesis_class;
         sample_x := sample_x; h_bar := h_bar |}.

Definition bias2 (self : BiasVariance) : ST (world G) float :=
  let* h := call (h_bar self (sample_x self)) in
  let* d := of_result (np_subtract h (target self (sample_x self))) in
  let bias2 := np_mean (np_square d) in
  ret bias2.

Definition variance (self : BiasVariance) : ST (world G) float :=
  let datasets_variances : list float := [] in
  run* np_random_seed 1 in
  let* datasets_variances :=
    for_each (range 1000) (fun i datasets_variances =>
      let* X := np_random_uniform (F64.of_Z (-1)) (F64.of_Z 1) 200 in
      let* noise := np_random_normal F64.zero (F64.of_Z 2) 200 in
      let* y := of_result (np_add (target self X) noise) in
      let* trained_coef := on_store (train (hypothesis_class self) X y) in
      let* trained_instance := on_store (assign (hypothesis_class self) trained_coef) in
      let* t := call (trained_instance X) in
      let* h := call (h_bar self X) in
      let* d := of_result (np_subtract t h) in
      let var := np_mean (np_square d) in
      ret (datasets_variances ++ [var])) datasets_variances in
  ret (np_mean datasets_variances).
End Estimator.


(** ** Summaries used in the statements *)



(** The callable that [assign] returns, for the linear model that it
    builds. *)
Definition degree10_predictor (model : LinearModel) : Predictor :=
  fun x σ =>
    result_bind (fit_transform 10 (np_reshape_column x)) (fun poly_x =>
    predict model poly_x σ).

(** The parameter vector that [train] computes: the coefficients with
    the intercept written into slot 0. *)
Definition degree10_params (T : Trainer) (X y : list float) : result (list float) :=
  result_bind (fit_transform 10 X) (fun poly_X =>
  result_bind (fit T poly_X y) (fun '(coef, intercept) =>
  match coef with
  | [] => Raise IndexError
  | _ :: rest => Ok (intercept :: rest)
  end)).

#[global] Arguments F64.add : simpl never.
#[global] Arguments F64.sub : simpl never.
#[global] Arguments F64.mul : simpl never.
#[global] Arguments F64.div : simpl never.
#[global] Arguments F64.of_Z : simpl never.
#[global] Arguments F64.pow : simpl never.
#[global] Arguments F64.square : simpl never.


(** Data that passes the validation of both [fit_transform] and [fit]:
    at least one sample, every power of every feature finite, finite
    labels, as many labels as features. *)
Definition expansion_finite (x : list float) : bool :=
  forallb (forallb F64.is_finite) (map (poly_row 10) x).


(** ** Instances for examples *)

(** A solver that sets every coefficient to zero and the intercept to
    the first label. *)
Definition first_label_trainer : Trainer :=
  fun A y => (map (fun _ => F64.zero) (hd [] A), hd F64.zero y).

(** ** The loops of [BiasVariance], statement by statement *)

Section Loops.
Context {G : Generator}.

(** Lines 108-110: the simulated dataset of a trial of [_estimate_h_bar]. *)
Definition h_bar_dataset (target : list float -> list float) :
    ST (world G) (list float * list float) :=
  let* X := np_random_uniform (F64.of_Z (-1)) (F64.of_Z 1) 200 in
  let* noise := np_random_normal F64.zero (F64.of_Z 2) 200 in
  let* y := of_result (np_add (target X) noise) in
  ret (X, y).

(** Lines 112-116: the rest of the trial. *)
Definition h_bar_accumulate (hypothesis_class : HypothesisSpace)
    (datasets_mean_coef : option loc) (X y : list float) : ST (world G) (option loc) :=
  let* trained_coef := on_store (train hypothesis_class X y) in
  match datasets_mean_coef with
  | None => ret (Some trained_coef)
  | Some mean_coef =>
      run* on_store (np_iadd mean_coef trained_coef) in
      ret (Some mean_coef)
  end.

Definition h_bar_trial (target : list float -> list float)
    (hypothesis_class : HypothesisSpace) (i : nat) (datasets_mean_coef : option loc) :
    ST (world G) (option loc) :=
  let* '(X, y) := h_bar_dataset target in
  h_bar_accumulate hypothesis_class datasets_mean_coef X y.

(** Lines 143-145: the simulated dataset of a trial of [variance]. *)
Definition variance_dataset (self : BiasVariance) :
    ST (world G) (list float * list float) :=
  let* X := np_random_uniform (F64.of_Z (-1)) (F64.of_Z 1) 200 in
  let* noise := np_random_normal F64.zero (F64.of_Z 2) 200 in
  let* y := of_result (np_add (target self X) noise) in
  ret (X, y).

(** Lines 147-151: the rest of the trial. *)
Definition variance_estimate (self : BiasVariance) (datasets_variances : list float)
    (X y : list float) : ST (world G) (list float) :=
  let* trained_coef := on_store (train (hypothesis_class self) X y) in
  let* trained_instance := on_store (assign (hypothesis_class self) trained_coef) in
  let* t := call (trained_instance X) in
  let* h := call (h_bar self X) in
  let* d := of_result (np_subtract t h) in
  let var := np_mean (np_square d) in
  ret (datasets_variances ++ [var]).

Definition variance_trial (self : BiasVariance) (i : nat)
    (datasets_variances : list float) : ST (world G) (list float) :=
  let* '(X, y) := variance_dataset self in
  variance_estimate self datasets_variances X y.

(** The first [n] trials of each pass, after the reseeding. *)
Definition h_bar_trials (target : list float -> list float)
    (hypothesis_class : HypothesisSpace) (n : nat) : ST (world G) (option loc) :=
  run* np_random_seed 1 in
  for_each (range n) (h_bar_trial target hypothesis_class) None.

Definition variance_trials (self : BiasVariance) (n : nat) : ST (world G) (list float) :=
  run* np_random_seed 1 in
  for_each (range n) (variance_trial self) [].

(** The driver cell of the notebook: construction, then [bias2()], then
    [variance()]. *)
Definition report (target : list float -> list float)
    (hypothesis_class : HypothesisSpace) : ST (world G) (float * float) :=
  let* BV := __init__ target hypothesis_class in
  let* bias2 := bias2 BV in
  let* variance := variance BV in
  ret (bias2, variance).

(** What a run returns, without the final state. *)
Definition outcome {S A : Type} (r : result (A * S)) : result A := result_map fst r.
End Loops.

(** ** The estimation procedure as the specification words it *)

Fixpoint result_mapM {A B : Type} (f : A -> result B) (l : list A) : result (list B) :=
  match l with
  | [] => Ok []
  | a :: l' => result_bind (f a) (fun b =>
               result_bind (result_mapM f l') (fun bs => Ok (b :: bs)))
  end.

(** The pure content of a stateless model family: the length of its
    parameter vectors, the vector that fitting computes, the vector that
    binding leaves in the array it was given, and the predictions of the
    predictor bound to a vector. *)
Record PureModel : Type := {
  dimension : nat;
  fitted : list float -> list float -> result (list float);
  rebound : list float -> result (list float);
  predictions : list float -> list float -> result (list float);
}.

(** A hypothesis space is stateless when [train] puts the fitted vector
    into a new array and does nothing else, and [assign] at most rewrites
    the array it is given and returns a predictor whose output depends
    only on the vector and on the input. *)
Record Stateless (H : HypothesisSpace) (M : PureModel) : Prop := {
  train_fresh : forall (X y : list float) (σ : store),
    train H X y σ = result_bind (fitted M X y) (fun v => alloc v σ);
  fitted_length : forall (X y v : list float),
    fitted M X y = Ok v -> length v = dimension M;
  assign_in_place : forall (params : loc) (v : list float) (σ : store),
    σ !! params = Some v ->
    match rebound M v with
    | Raise e => assign H params σ = Raise e
    | Ok v' => exists p : Predictor,
        assign H params σ = Ok (p, <[params := v']> σ)
        /\ forall (x : list float) (σ' : store),
             σ' !! params = Some v' -> p x σ' = predictions M v x
    end;
}.

(** The pure content of the degree-10 family with solver [T]. *)
Definition degree10_model (T : Trainer) : PureModel := {|
  dimension := 11;
  fitted := degree10_params T;
  rebound := fun v => match v with [] => Raise IndexError | _ :: rest => Ok (F64.zero :: rest) end;
  predictions := fun v x =>
    result_bind (fit_transform 10 x) (fun poly_x =>
    result_bind (check_array poly_x) (fun _ =>
    if forallb (fun row => bool_decide (length row = length v)) poly_x
    then Ok (map (fun row => (dot row (<[0%nat := F64.zero]> v) + hd F64.zero v)%flt) poly_x)
    else Raise ValueError));
|}.

Section Specification.
Context {G : Generator}.

(** One trial: 200 feature values uniform on [-1, 1), then 200 noise
    values from the Gaussian with mean 0 and standard deviation 2. *)
Definition trial_draws (g : rng_state G) : (list float * list float) * rng_state G :=
  let '(features, g1) := draws (rng_uniform G (F64.of_Z (-1)) (F64.of_Z 1)) 200 g in
  let '(noise, g2) := draws (rng_normal G F64.zero (F64.of_Z 2)) 200 g1 in
  ((features, noise), g2).

(** [n] trials in a row. *)
Fixpoint simulate (n : nat) (g : rng_state G) :
    list (list float * list float) * rng_state G :=
  match n with
  | O => ([], g)
  | S k => let '(d, g1) := trial_draws g in
           let '(ds, g2) := simulate k g1 in
           (d :: ds, g2)
  end.

(** labels = TargetFunction(features) + noise. *)
Definition dataset (target : list float -> list float) (d : list float * list float) :
    result (list float * list float) :=
  result_map (fun labels => (d.1, labels)) (np_add (target d.1) d.2).

(** The datasets of the trials of a pass: the generator is reset to
    seed 1 first. *)
Definition datasets (target : list float -> list float) (n : nat) :
    list (result (list float * list float)) :=
  map (dataset target) (simulate n (rng_seed G 1)).1.

(** The generator state at the end of a pass. *)
Definition final_rng (n : nat) : rng_state G := (simulate n (rng_seed G 1)).2.

(** The fitted ParameterVectors of the trials. *)
Definition fitted_vectors (target : list float -> list float) (M : PureModel) (n : nat) :
    result (list (list float)) :=
  result_mapM (fun d => result_bind d (fun '(features, labels) =>
                        fitted M features labels))
              (datasets target n).

(** Element-wise sum of vectors, and their arithmetic mean over [n]. *)
Definition vector_sum (vs : list (list float)) : list float :=
  match vs with
  | [] => []
  | v :: rest => fold_left (zip_with F64.add) rest v
  end.

Definition vector_mean (n : Z) (vs : list (list float)) : list float :=
  map (fun s => (s / F64.of_Z n)%flt) (vector_sum vs).

(** 4.2.1: the mean of the 1000 fitted vectors. *)
Definition mean_parameters (target : list float -> list float) (M : PureModel) :
    result (list float) :=
  result_map (vector_mean 1000) (fitted_vectors target M 1000).

(** The mean of the squared differences of two prediction arrays. *)
Definition mean_squared_difference (a b : list float) : result float :=
  result_map (fun d => np_mean (np_square d)) (np_subtract a b).

(** 4.2.2: the squared-bias estimate for a mean vector. *)
Definition squared_bias (target : list float -> list float) (M : PureModel)
    (grid mean : list float) : result float :=
  result_bind (predictions M mean grid) (fun h =>
  mean_squared_difference h (target grid)).

(** 4.2.3: the variance estimate of one trial, on the trial's own
    features. *)
Definition trial_variance (M : PureModel) (mean : list float)
    (d : result (list float * list float)) : result float :=
  result_bind d (fun '(features, labels) =>
  result_bind (fitted M features labels) (fun v =>
  result_bind (rebound M v) (fun _ =>
  result_bind (predictions M v features) (fun t =>
  result_bind (predictions M mean features) (fun h =>
  mean_squared_difference t h))))).

(** 4.2.3: the mean of the 1000 per-trial estimates. *)
Definition variance_estimator (target : list float -> list float) (M : PureModel)
    (mean : list float) : result float :=
  result_map np_mean (result_mapM (trial_variance M mean) (datasets target 1000)).
End Specification.

Arguments datasets : clear implicits.
Arguments final_rng : clear implicits.
Arguments fitted_vectors : clear implicits.
Arguments mean_parameters : clear implicits.
Arguments variance_estimator : clear implicits.

Section Replay.
Context {G : Generator}.

(** The datasets of [n] trials in a row from generator state [g], each
    with the generator state that its draws leave. *)
Fixpoint dataset_trace_from (target : list float -> list float) (n : nat)
    (g : rng_state G) : list (result (list float * list float) * rng_state G) :=
  match n with
  | O => []
  | S k => let '(d, g1) := trial_draws g in
           (dataset target d, g1) :: dataset_trace_from target k g1
  end.

(** The trace of a pass: the generator is reset to seed 1 first. *)
Definition dataset_trace (target : list float -> list float) (n : nat) :
    list (result (list float * list float) * rng_state G) :=
  dataset_trace_from target n (rng_seed G 1).

(** A loop that takes its datasets from a trace instead of drawing
    them: trial by trial, the generator is put in the recorded state and
    the rest of the trial runs on the recorded dataset. *)
Definition replay {A : Type}
    (trace : list (result (list float * list float) * rng_state G))
    (rest : A -> list float -> list float -> ST (world G) A) (acc : A) :
    ST (world G) A :=
  for_each trace (fun t acc =>
    run* on_rng (fun _ => (tt, t.2)) in
    let* '(X, y) := of_result t.1 in
    rest acc X y) acc.
End Replay.

Arguments dataset_trace : clear implicits.

(** The SampleGrid. *)
Definition sample_grid : result (list float) :=
  np_arange (F64.of_Z (-1)) (F64.of_Z 1) F64.lit_0_01.

(** The 200 points of the SampleGrid, computed. *)
Definition grid_points : list float :=
  Eval vm_compute in match sample_grid with Ok l => l | Raise _ => [] end.

(** A finite float times 2^1100, which is an integer. *)
Definition scaled (x : float) : option Z :=
  match x with
  | S754_zero _ => Some 0
  | S754_finite s m e =>
      if 0 <=? e + 1100 then Some (cond_Zopp s (Z.pos m) * 2 ^ (e + 1100)) else None
  | _ => None
  end.

(** [x] is within 2^-49 of the real number [-1 + i / 100]. *)
Definition near_grid_point (i : nat) (x : float) : bool :=
  match scaled x with
  | Some z => Z.abs (100 * z - (Z.of_nat i - 100) * 2 ^ 1100) <=? 100 * 2 ^ (1100 - 49)
  | None => false
  end.

(** The state after a successful construction from target [f] and
    family [H]: the estimator's fields, and the array [m] that the mean
    hypothesis reads. *)
Definition constructed (f : list float -> list float) (H : HypothesisSpace) (M : PureModel)
    (self : BiasVariance) (mean : list float) (m : loc) (σ : store) : Prop :=
  target self = f
  /\ hypothesis_class self = H
  /\ sample_x self = grid_points
  /\ exists mean' : list float,
       rebound M mean = Ok mean'
       /\ σ !! m = Some mean'
       /\ forall (x : list float) (σ' : store),
            σ' !! m = Some mean' -> h_bar self x σ' = predictions M mean x.

(** A generator for examples: the state is a counter; a uniform draw
    is [low + (high - low) * (c mod 1024) / 1024], a normal draw is
    [loc + scale * ((c mod 9) - 4) / 2]. *)
Definition counter_generator : Generator := {|
  rng_state := Z;
  rng_seed := fun n => n;
  rng_uniform := fun low high c =>
    ((low + (high - low) * (F64.of_Z (c `mod` 1024) / F64.of_Z 1024))%flt, c + 1);
  rng_normal := fun loc scale c =>
    ((loc + scale * (F64.of_Z (c `mod` 9 - 4) / F64.of_Z 2))%flt, c + 1);
|}.

(** A target for examples: the identity. *)
Definition identity_target : list float -> list float := fun x => x.

(** A family for examples: every fit returns the vector [0.0], and
    every predictor predicts [0.0] at every input. *)
Definition zero_family : HypothesisSpace := {|
  train := fun _ _ => alloc [F64.zero];
  assign := fun _ => ret (fun x _ => Ok (map (fun _ => F64.zero) x));
|}.

Definition zero_model : PureModel := {|
  dimension := 1;
  fitted := fun _ _ => Ok [F64.zero];
  rebound := fun v => Ok v;
  predictions := fun _ x => Ok (map (fun _ => F64.zero) x);
|}.

(** A family for examples whose fit depends on the data: the fitted
    vector holds the first label, and the predictor bound to an array
    predicts, at every input, the value that the array holds when it is
    called. *)
Definition first_label_family : HypothesisSpace := {|
  train := fun _ y => alloc [hd F64.zero y];
  assign := fun params =>
    ret (fun x σ => match σ !! params with
                    | Some v => Ok (map (fun _ => hd F64.zero v) x)
                    | None => Raise TypeError
                    end);
|}.

Definition first_label_model : PureModel := {|
  dimension := 1;
  fitted := fun _ y => Ok [hd F64.zero y];
  rebound := fun v => Ok v;
  predictions := fun v x => Ok (map (fun _ => hd F64.zero v) x);
|}.



(** The driver cell as the specification words it: the mean vector is
    bound, then the squared bias on the grid and the variance. *)
Definition report_value (G : Generator) (f : list float -> list float) (M : PureModel) :
    result (float * float) :=
  result_bind (mean_parameters G f M) (fun mean =>
  result_bind (rebound M mean) (fun _ =>
  result_bind (squared_bias f M grid_points mean) (fun b =>
  result_bind (variance_estimator G f M mean) (fun v =>
  Ok (b, v))))).

(** A predictor that returns, whenever it returns, finite values, one
    per input. *)
Definition finite_valued (p : Predictor) : Prop :=
  forall (x out : list float) (σ : store),
    p x σ = Ok out -> length out = length x /\ forallb F64.is_finite out = true.

(** A state for examples: no arrays, the counter at 7. *)
Definition empty_world : world counter_generator := ((∅ : store), 7).

(** A state for examples with one array, at location 3. *)
Definition populated_world : world counter_generator :=
  (({[ 3%positive := [F64.of_Z 1; F64.of_Z 2] ]} : store), 50).

(** The predictions of a degree-10 linear model with coefficients [coef]
    and intercept [intercept] at the inputs [x]: validation of the input
    and of its expansion, then one inner product per input. *)
Definition degree10_predictions (coef : list float) (intercept : float) (x : list float) :
    result (list float) :=
  result_bind (fit_transform 10 x) (fun poly_x =>
  result_bind (check_array poly_x) (fun _ =>
  if forallb (fun row => bool_decide (length row = length coef)) poly_x
  then Ok (map (fun row => (dot row coef + intercept)%flt) poly_x)
  else Raise ValueError)).
(** * Properties *)

Example lit_0_01_nearest : F64.lit_0_01 = (F64.of_Z 1 / F64.of_Z 100)%flt.
Proof. vm_compute. reflexivity. Qed.

Example square_underflow :
  F64.square (S754_finite false 4503599627370496 (-700)) = F64.zero.
Proof. vm_compute. reflexivity. Qed.


(** ** Signs of binary64 results *)






(** What holds of [0.] and is kept by the addition holds of the sum of
    an array all of whose elements have it, in whatever order the
    pairwise summation adds them. *)
Section SumClosed.
Variable P : float -> Prop.
Hypothesis P_zero : P F64.zero.
Hypothesis P_add : forall x y, P x -> P y -> P (x + y)%flt.







End SumClosed.

(** The pairwise summation, case by case. *)
Lemma split_point_bounds (n : nat) :
  (PW_BLOCKSIZE < n)%nat ->
  (0 < n / 2 - (n / 2) mod 8 < n)%nat.
Proof.
  unfold PW_BLOCKSIZE. intros Hn.
  pose proof (Nat.mod_upper_bound (n / 2) 8 ltac:(lia)) as Hmod.
  assert (64 <= n / 2)%nat by (apply Nat.div_le_lower_bound; lia).
  assert (n / 2 < n)%nat by (apply Nat.div_lt; lia).
  lia.
Qed.

(** The depth bound of [pairwise_sum_rec] is never reached: with at
    least as much fuel as the array has elements the result does not
    depend on the fuel. *)
Lemma pairwise_sum_rec_fuel (fuel fuel' : nat) (a : list float) :
  (length a <= fuel)%nat -> (length a <= fuel')%nat ->
  pairwise_sum_rec fuel a = pairwise_sum_rec fuel' a.
Proof.
  revert fuel' a. induction fuel as [| fuel IH]; intros fuel' a Hf Hf'.
  - destruct a; [| cbn in Hf; lia]. now destruct fuel'.
  - destruct fuel' as [| fuel'].
    + destruct a; [reflexivity | cbn in Hf'; lia].
    + cbn [pairwise_sum_rec].
      destruct (length a <? 8)%nat; [reflexivity |].
      destruct (length a <=? PW_BLOCKSIZE)%nat eqn:Hb; [reflexivity |].
      apply Nat.leb_gt in Hb. pose proof (split_point_bounds _ Hb) as Hn2.
      rewrite (IH fuel' (take _ a)), (IH fuel' (drop _ a));
        rewrite ?length_take, ?length_drop; try lia. reflexivity.
Qed.

Lemma pairwise_sum_small (a : list float) :
  (length a < 8)%nat -> pairwise_sum a = sum_sequential F64.zero a.
Proof.
  intros Hn. unfold pairwise_sum.
  rewrite (pairwise_sum_rec_fuel _ (S (length a))) by lia.
  cbn [pairwise_sum_rec]. now apply Nat.ltb_lt in Hn as ->.
Qed.

Lemma pairwise_sum_block (a : list float) :
  (8 <= length a <= PW_BLOCKSIZE)%nat -> pairwise_sum a = sum_block a.
Proof.
  intros [Hlo Hhi]. unfold pairwise_sum.
  rewrite (pairwise_sum_rec_fuel _ (S (length a))) by lia.
  cbn [pairwise_sum_rec].
  apply Nat.ltb_ge in Hlo as ->. now apply Nat.leb_le in Hhi as ->.
Qed.

Lemma pairwise_sum_split (a : list float) :
  (PW_BLOCKSIZE < length a)%nat ->
  pairwise_sum a
  = (pairwise_sum (take (length a / 2 - (length a / 2) mod 8) a)
     + pairwise_sum (drop (length a / 2 - (length a / 2) mod 8) a))%flt.
Proof.
  intros Hn. pose proof (split_point_bounds _ Hn) as Hn2.
  set (n2 := (length a / 2 - (length a / 2) mod 8)%nat) in *.
  unfold pairwise_sum.
  rewrite (pairwise_sum_rec_fuel _ (S (length a)) a) by lia.
  cbn [pairwise_sum_rec].
  replace (length a <? 8)%nat with false
    by (symmetry; apply Nat.ltb_ge; unfold PW_BLOCKSIZE in Hn; lia).
  replace (length a <=? PW_BLOCKSIZE)%nat with false
    by (symmetry; now apply Nat.leb_gt).
  fold n2.
  rewrite (pairwise_sum_rec_fuel (length a) (length (take n2 a)) (take n2 a)),
          (pairwise_sum_rec_fuel (length a) (length (drop n2 a)) (drop n2 a));
    rewrite ?length_take, ?length_drop; try lia. reflexivity.
Qed.

(** With 200 elements: two blocks, of 96 and of 104 elements. *)
Lemma np_sum_200 (a : list float) :
  length a = 200%nat ->
  np_sum a = (F64.zero + (sum_block (take 96 a) + sum_block (drop 96 a)))%flt.
Proof.
  intros Hlen. unfold np_sum. rewrite pairwise_sum_split by (rewrite Hlen; cbv; lia).
  rewrite Hlen. change (200 / 2 - (200 / 2) mod 8)%nat with 96%nat.
  rewrite !pairwise_sum_block; [reflexivity | |];
    rewrite ?length_take, ?length_drop, Hlen; cbv; lia.
Qed.

(** The order of the additions shows in the last bits of a mean: on 200
    copies of the square of 0.1, adding pairwise and adding from left to
    right differ. *)
Lemma np_mean_pairwise_bits :
  np_mean (repeat (F64.square (F64.of_Z 1 / F64.of_Z 10)%flt) 200)
  = S754_finite false 5764607523034237 (-59)
  /\ (fold_left F64.add (repeat (F64.square (F64.of_Z 1 / F64.of_Z 10)%flt) 200) F64.zero
      / F64.of_Z 200)%flt
     = S754_finite false 5764607523034239 (-59).
Proof. split; vm_compute; reflexivity. Qed.




















(** ** The degree-10 families *)

Lemma degree10_train_pure (T : Trainer) (X y : list float) (σ : store) :
  UnRegularized10thModel_train T X y σ
  = result_bind (degree10_params T X y) (fun v => alloc v σ).
Proof.
  unfold UnRegularized10thModel_train, degree10_params, np_reshape_column, bind, of_result.
  destruct (fit_transform 10 X) as [poly_X | e]; [| reflexivity]. cbn.
  destruct (fit T poly_X y) as [[coef intercept] | e]; [| reflexivity]. cbn.
  unfold setitem0, bind, load, alloc, store_at, raise, ret.
  rewrite lookup_insert_eq.
  destruct coef as [| c rest]; [reflexivity |].
  cbn. now rewrite insert_insert_eq.
Qed.

Lemma ridge_train_pure (Ridge : float -> Trainer) (X y : list float) (σ : store) :
  Regularized10thModel_train Ridge X y σ
  = result_bind (degree10_params (Ridge (F64.of_Z 2)) X y) (fun v => alloc v σ).
Proof. apply (degree10_train_pure (Ridge (F64.of_Z 2))). Qed.

Lemma degree10_assign_cons (params : loc) (x0 : float) (rest : list float) (σ : store) :
  σ !! params = Some (x0 :: rest) ->
  UnRegularized10thModel_assign params σ
  = Ok (degree10_predictor {| coef_ := params; intercept_ := x0 |},
        <[params := F64.zero :: rest]> σ).
Proof.
  intros Hv.
  unfold UnRegularized10thModel_assign, getitem0, setitem0, bind, load, store_at, ret.
  rewrite Hv. cbn. rewrite Hv. reflexivity.
Qed.

Lemma degree10_assign_nil (params : loc) (σ : store) :
  σ !! params = Some [] ->
  UnRegularized10thModel_assign params σ = Raise IndexError.
Proof.
  intros Hv.
  unfold UnRegularized10thModel_assign, getitem0, bind, load, raise.
  rewrite Hv. reflexivity.
Qed.

Lemma ridge_assign_eq : Regularized10thModel_assign = UnRegularized10thModel_assign.
Proof. reflexivity. Qed.

Lemma poly_row_length (d : nat) (v : float) : length (poly_row d v) = S d.
Proof. unfold poly_row. now rewrite length_map, length_seq. Qed.

Lemma check_array_error (A : list (list float)) (e : exn) :
  check_array A = Raise e -> e = ValueError.
Proof.
  unfold check_array. destruct A; [congruence |].
  destruct (forallb _ _); congruence.
Qed.

Lemma check_array_ok (A : list (list float)) :
  A <> [] -> forallb (forallb F64.is_finite) A = true -> check_array A = Ok tt.
Proof.
  intros HA Hfin. unfold check_array. destruct A; [congruence |]. now rewrite Hfin.
Qed.

Lemma check_array_inv (A : list (list float)) (u : unit) :
  check_array A = Ok u -> A <> [] /\ forallb (forallb F64.is_finite) A = true.
Proof.
  unfold check_array. destruct A; [congruence |].
  destruct (forallb _ _) eqn:E; [| congruence]. intros _. split; congruence.
Qed.

Lemma fit_transform_error (d : nat) (X : list float) (e : exn) :
  fit_transform d X = Raise e -> e = ValueError.
Proof.
  unfold fit_transform.
  destruct (check_array _) eqn:E; cbn; [congruence |].
  intros [= <-]. eapply check_array_error, E.
Qed.

Lemma fit_transform_inv (d : nat) (X : list float) (A : list (list float)) :
  fit_transform d X = Ok A -> X <> [] /\ A = map (poly_row d) X.
Proof.
  unfold fit_transform.
  destruct (check_array _) eqn:E; cbn; [| congruence].
  intros [= <-]. apply check_array_inv in E as [HX _].
  split; [| reflexivity]. intros ->. now apply HX.
Qed.

Lemma column_finite (X : list float) :
  expansion_finite X = true ->
  forallb (forallb F64.is_finite) (map (fun v => [v]) X) = true.
Proof.
  unfold expansion_finite. induction X as [| v X IH]; [reflexivity |].
  cbn [map forallb]. intros [Hv HX]%andb_prop.
  rewrite (IH HX), andb_true_r, andb_true_r.
  unfold poly_row in Hv. cbn [seq map forallb] in Hv.
  apply andb_prop in Hv as [_ Hv]. now apply andb_prop in Hv as [Hv _].
Qed.

Lemma fit_transform_ok (X : list float) :
  X <> [] -> expansion_finite X = true ->
  fit_transform 10 X = Ok (map (poly_row 10) X).
Proof.
  intros HX Hfin. unfold fit_transform.
  rewrite check_array_ok; [reflexivity | | now apply column_finite].
  destruct X; [congruence | discriminate].
Qed.


Lemma fit_inv (T : Trainer) (A : list (list float)) (y : list float) (r : list float * float) :
  fit T A y = Ok r -> r = T A y /\ length A = length y.
Proof.
  unfold fit. destruct (check_array A); cbn; [| congruence].
  destruct (negb _); [congruence |]. destruct (decide _); [| congruence].
  intros [= <-]. now split.
Qed.


Lemma degree10_params_length (T : Trainer) (X y v : list float) :
  coef_per_column T -> degree10_params T X y = Ok v -> length v = 11%nat.
Proof.
  intros HT. unfold degree10_params.
  destruct (fit_transform 10 X) as [A | e] eqn:EA; cbn; [| congruence].
  apply fit_transform_inv in EA as [HX ->].
  destruct (fit T _ y) as [[coef intercept] | e] eqn:Er; cbn; [| congruence].
  apply fit_inv in Er as [Er _].
  pose proof (HT (map (poly_row 10) X) y) as Hlen. rewrite <- Er in Hlen.
  destruct X as [| x X]; [congruence |]. cbn [map hd fst] in Hlen.
  rewrite poly_row_length in Hlen.
  destruct coef as [| c rest]; [discriminate |].
  intros [= <-]. exact Hlen.
Qed.


Lemma predict_length (model : LinearModel) (A : list (list float)) (σ : store)
    (out : list float) :
  predict model A σ = Ok out -> length out = length A.
Proof.
  unfold predict. destruct (σ !! coef_ model) as [coef |]; [| congruence].
  destruct (check_array A); cbn; [| congruence].
  destruct (forallb _ A); [| congruence].
  intros [= <-]. apply length_map.
Qed.

Lemma predict_ok (model : LinearModel) (coef : list float) (X : list float) (σ : store) :
  σ !! coef_ model = Some coef -> length coef = 11%nat ->
  X <> [] -> expansion_finite X = true ->
  exists out, predict model (map (poly_row 10) X) σ = Ok out.
Proof.
  intros Hcoef Hlen HX Hfin. unfold predict. rewrite Hcoef.
  rewrite check_array_ok; [| now destruct X | exact Hfin]. cbn [result_bind].
  assert (forallb (fun row => bool_decide (length row = length coef))
            (map (poly_row 10) X) = true) as ->; [| eauto].
  apply forallb_forall. intros row [v [<- _]]%in_map_iff.
  apply bool_decide_eq_true. now rewrite poly_row_length.
Qed.


Lemma degree10_predictor_length (model : LinearModel) (coef x : list float) (σ : store) :
  σ !! coef_ model = Some coef -> length coef = 11%nat ->
  x <> [] -> expansion_finite x = true ->
  exists out, degree10_predictor model x σ = Ok out /\ length out = length x.
Proof.
  intros Hcoef Hlen Hx Hfin. unfold degree10_predictor, np_reshape_column.
  rewrite (fit_transform_ok x Hx Hfin). cbn [result_bind].
  destruct (predict_ok model coef x σ Hcoef Hlen Hx Hfin) as [out Hout].
  exists out. split; [exact Hout |].
  apply predict_length in Hout. now rewrite length_map in Hout.
Qed.


(** What [assign] of either family does to a store in which [params]
    holds a non-empty vector. *)
Lemma degree10_assign_spec (LinearRegression : Trainer) (Ridge : float -> Trainer)
    (H : HypothesisSpace) (params : loc) (v : list float) (σ : store) :
  H = UnRegularized10thModel LinearRegression \/ H = Regularized10thModel Ridge ->
  σ !! params = Some v -> v <> [] ->
  assign H params σ
  = Ok (degree10_predictor {| coef_ := params; intercept_ := hd F64.zero v |},
        <[params := <[0%nat := F64.zero]> v]> σ).
Proof.
  intros HH Hv Hne. destruct v as [| x0 rest]; [congruence |].
  destruct HH as [-> | ->]; cbn [assign UnRegularized10thModel Regularized10thModel];
    rewrite ?ridge_assign_eq; now apply degree10_assign_cons.
Qed.


Lemma first_label_trainer_shape : coef_per_column first_label_trainer.
Proof. intros A y. unfold first_label_trainer. cbn [fst]. apply length_map. Qed.

(** ** The claims about the model families *)

(** C9. [assign] of either degree-10 family writes into its argument:
    when [params] holds a non-empty vector [v], the call returns
    normally, and afterwards the same array object holds [v] with slot 0
    overwritten by [0.0] and every other slot unchanged; no other array
    is changed and none is created, and the coefficient array of the
    returned predictor is [params] itself, not a copy. *)
Theorem assign_mutates_params_in_place (LinearRegression : Trainer)
    (Ridge : float -> Trainer) (H : HypothesisSpace) (params : loc)
    (v : list float) (σ : store) :
  H = UnRegularized10thModel LinearRegression \/ H = Regularized10thModel Ridge ->
  σ !! params = Some v -> v <> [] ->
  exists (p : Predictor) (σ' : store) (v' : list float),
    assign H params σ = Ok (p, σ')
    /\ σ' !! params = Some v'
    /\ v' = <[0%nat := F64.zero]> v
    /\ v' !! 0%nat = Some F64.zero
    /\ (forall i : nat, (0 < i)%nat -> v' !! i = v !! i)
    /\ (forall l : loc, l <> params -> σ' !! l = σ !! l)
    /\ dom σ' = dom σ
    /\ p = degree10_predictor {| coef_ := params; intercept_ := hd F64.zero v |}.
Proof.
  intros HH Hv Hne.
  eexists _, _, _. split; [eapply degree10_assign_spec; eauto |].
  split; [apply lookup_insert_eq |]. split; [reflexivity |].
  repeat split.
  - destruct v; [congruence | reflexivity].
  - intros i Hi. apply list_lookup_insert_ne. lia.
  - intros l Hl. now apply lookup_insert_ne.
  - apply dom_insert_lookup_L. now exists v.
Qed.

Lemma assign_mutates_params_in_place_witness :
  ({[1%positive := [F64.of_Z 3; F64.of_Z 5]]} : store) !! 1%positive
    = Some [F64.of_Z 3; F64.of_Z 5]
  /\ exists (p : Predictor) (σ' : store) (v' : list float),
    assign (UnRegularized10thModel first_label_trainer) 1%positive
      {[1%positive := [F64.of_Z 3; F64.of_Z 5]]} = Ok (p, σ')
    /\ σ' !! 1%positive = Some v'
    /\ v' = <[0%nat := F64.zero]> [F64.of_Z 3; F64.of_Z 5]
    /\ v' !! 0%nat = Some F64.zero
    /\ (forall i : nat, (0 < i)%nat -> v' !! i = [F64.of_Z 3; F64.of_Z 5] !! i)
    /\ (forall l : loc, l <> 1%positive ->
          σ' !! l = ({[1%positive := [F64.of_Z 3; F64.of_Z 5]]} : store) !! l)
    /\ dom σ' = dom ({[1%positive := [F64.of_Z 3; F64.of_Z 5]]} : store)
    /\ p = degree10_predictor
             {| coef_ := 1%positive;
                intercept_ := hd F64.zero [F64.of_Z 3; F64.of_Z 5] |}.
Proof.
  split; [reflexivity |].
  apply (assign_mutates_params_in_place first_label_trainer
           (fun _ => first_label_trainer) _ _ [F64.of_Z 3; F64.of_Z 5]).
  - left. reflexivity.
  - reflexivity.
  - discriminate.
Defined.




(** C10 as stated fails: the predictor that [assign] returns for a
    vector of length 2 raises on an input of length 1. *)
Lemma short_vector_predictor_raises :
  exists (p : Predictor) (σ' : store),
    assign (UnRegularized10thModel first_label_trainer) 1%positive
      {[1%positive := [F64.of_Z 3; F64.of_Z 5]]} = Ok (p, σ')
    /\ length [F64.zero] = 1%nat
    /\ p [F64.zero] σ' = Raise ValueError.
Proof.
  eexists _, _. split; [| split; [reflexivity |]].
  - apply (degree10_assign_spec first_label_trainer (fun _ => first_label_trainer));
      [now left | reflexivity | discriminate].
  - vm_compute. reflexivity.
Qed.

(** C10, amended.  A predictor that [assign] of either degree-10 family
    returns for a vector of length 11 maps every input array of length
    m >= 1, all of whose powers up to the tenth are finite, to an
    output array of length m. *)
Theorem predictor_preserves_length (LinearRegression : Trainer)
    (Ridge : float -> Trainer) (H : HypothesisSpace) (params : loc)
    (v : list float) (σ : store) :
  H = UnRegularized10thModel LinearRegression \/ H = Regularized10thModel Ridge ->
  σ !! params = Some v -> length v = 11%nat ->
  exists (p : Predictor) (σ' : store),
    assign H params σ = Ok (p, σ')
    /\ forall x : list float,
         (1 <= length x)%nat -> expansion_finite x = true ->
         exists out : list float, p x σ' = Ok out /\ length out = length x.
Proof.
  intros HH Hv Hlen.
  eexists _, _. split.
  - eapply degree10_assign_spec; eauto. now destruct v.
  - intros x Hx Hfin.
    apply (degree10_predictor_length _ (<[0%nat := F64.zero]> v)).
    + cbn [coef_]. apply lookup_insert_eq.
    + now rewrite length_insert.
    + destruct x; [cbn in Hx; lia | discriminate].
    + exact Hfin.
Qed.

Lemma predictor_preserves_length_witness :
  ({[1%positive := repeat (F64.of_Z 1) 11]} : store) !! 1%positive
    = Some (repeat (F64.of_Z 1) 11)
  /\ length (repeat (F64.of_Z 1) 11) = 11%nat
  /\ exists (p : Predictor) (σ' : store),
       assign (Regularized10thModel (fun _ => first_label_trainer)) 1%positive
         {[1%positive := repeat (F64.of_Z 1) 11]} = Ok (p, σ')
       /\ forall x : list float,
            (1 <= length x)%nat -> expansion_finite x = true ->
            exists out : list float, p x σ' = Ok out /\ length out = length x.
Proof.
  split; [reflexivity |]. split; [reflexivity |].
  apply (predictor_preserves_length first_label_trainer (fun _ => first_label_trainer)
           _ _ (repeat (F64.of_Z 1) 11)).
  - right. reflexivity.
  - reflexivity.
  - reflexivity.
Defined.




(** ** The two passes of the estimator *)

Section Passes.
Context {G : Generator}.

Lemma bind_on_rng {A B : Type} (f : rng_state G -> A * rng_state G)
    (k : A -> ST (world G) B) (w : world G) :
  (let* a := on_rng f in k a) w = k (f w.2).1 (w.1, (f w.2).2).
Proof. unfold bind, on_rng. now destruct (f w.2). Qed.

Lemma bind_of_result {S A B : Type} (r : result A) (k : A -> ST S B) (s : S) :
  (let* a := of_result r in k a) s
  = match r with Ok a => k a s | Raise e => Raise e end.
Proof. unfold bind, of_result. now destruct r. Qed.

Lemma bind_on_store {A B : Type} (c : ST store A) (k : A -> ST (world G) B)
    (w : world G) :
  (let* a := on_store c in k a) w
  = match c w.1 with Ok (a, σ) => k a (σ, w.2) | Raise e => Raise e end.
Proof. unfold bind, on_store. now destruct (c w.1) as [[a σ] | e]. Qed.

Lemma bind_call {A B : Type} (f : store -> result A) (k : A -> ST (world G) B)
    (w : world G) :
  (let* a := call f in k a) w
  = match f w.1 with Ok a => k a w | Raise e => Raise e end.
Proof. unfold bind, call. now destruct (f w.1). Qed.

Lemma trial_draws_eq (g : rng_state G) :
  trial_draws g
  = let X := draws (rng_uniform G (F64.of_Z (-1)) (F64.of_Z 1)) 200 g in
    let noise := draws (rng_normal G F64.zero (F64.of_Z 2)) 200 X.2 in
    ((X.1, noise.1), noise.2).
Proof.
  unfold trial_draws.
  destruct (draws (rng_uniform G _ _) 200 g) as [X g1]. cbn [fst snd].
  now destruct (draws (rng_normal G _ _) 200 g1) as [noise g2].
Qed.

Lemma h_bar_dataset_run (target : list float -> list float) (σ : store) (g : rng_state G) :
  h_bar_dataset target (σ, g)
  = result_map (fun d => (d, (σ, (trial_draws g).2))) (dataset target (trial_draws g).1).
Proof.
  unfold h_bar_dataset, np_random_uniform, np_random_normal.
  rewrite bind_on_rng, bind_on_rng, bind_of_result, trial_draws_eq.
  unfold dataset. cbn [fst snd].
  destruct (np_add _ _); reflexivity.
Qed.

Lemma variance_dataset_run (self : BiasVariance) (σ : store) (g : rng_state G) :
  variance_dataset self (σ, g)
  = result_map (fun d => (d, (σ, (trial_draws g).2)))
      (dataset (target self) (trial_draws g).1).
Proof. apply h_bar_dataset_run. Qed.

Lemma for_each_app {S I A : Type} (l1 l2 : list I) (body : I -> A -> ST S A)
    (acc : A) (s : S) :
  for_each (l1 ++ l2) body acc s
  = (let* acc' := for_each l1 body acc in for_each l2 body acc') s.
Proof.
  revert acc s. induction l1 as [| i l1 IH]; intros acc s; [reflexivity |].
  cbn [app for_each]. unfold bind.
  destruct (body i acc s) as [[acc1 s1] | e]; [| reflexivity].
  rewrite IH. reflexivity.
Qed.


Lemma simulate_S (n : nat) (g : rng_state G) :
  simulate (S n) g
  = ((trial_draws g).1 :: (simulate n (trial_draws g).2).1,
     (simulate n (trial_draws g).2).2).
Proof.
  cbn [simulate]. destruct (trial_draws g) as [d g1]. cbn [fst snd].
  now destruct (simulate n g1).
Qed.

Lemma h_bar_trial_run (target : list float -> list float) (H : HypothesisSpace)
    (i : nat) (acc : option loc) (σ : store) (g : rng_state G) :
  h_bar_trial target H i acc (σ, g)
  = result_bind (dataset target (trial_draws g).1) (fun '(X, y) =>
    h_bar_accumulate H acc X y (σ, (trial_draws g).2)).
Proof.
  unfold h_bar_trial, bind. rewrite h_bar_dataset_run.
  now destruct (dataset _ _) as [[X y] | e].
Qed.

Section StatelessFamily.
Variable target : list float -> list float.
Variable H : HypothesisSpace.
Variable M : PureModel.
Hypothesis HS : Stateless H M.

Local Abbreviation fit_dataset :=
  (fun d : result (list float * list float) =>
     result_bind d (fun '(features, labels) => fitted M features labels)).

Lemma accumulate_first (X y : list float) (σ : store) (g : rng_state G) :
  h_bar_accumulate H None X y (σ, g)
  = result_bind (fitted M X y) (fun v =>
    Ok (Some (fresh (dom σ)), (<[fresh (dom σ) := v]> σ, g))).
Proof.
  unfold h_bar_accumulate. rewrite bind_on_store. cbn [fst snd].
  rewrite (train_fresh H M HS). now destruct (fitted M X y).
Qed.

Lemma accumulate_next (m : loc) (s X y : list float) (σ : store) (g : rng_state G) :
  σ !! m = Some s -> length s = dimension M ->
  h_bar_accumulate H (Some m) X y (σ, g)
  = result_bind (fitted M X y) (fun v =>
    Ok (Some m, (<[m := zip_with F64.add s v]> (<[fresh (dom σ) := v]> σ), g))).
Proof.
  intros Hs Hlen. unfold h_bar_accumulate. rewrite bind_on_store. cbn [fst snd].
  rewrite (train_fresh H M HS).
  destruct (fitted M X y) as [v | e] eqn:Ev; [| reflexivity].
  cbn [result_bind alloc]. rewrite bind_on_store. cbn [fst snd].
  assert (m <> fresh (dom σ)) as Hm.
  { intros ->. apply (is_fresh (dom σ)). apply elem_of_dom. now exists s. }
  unfold np_iadd, bind, load, store_at, ret.
  rewrite lookup_insert_ne, Hs by congruence. rewrite lookup_insert_eq.
  rewrite decide_True; [reflexivity |].
  rewrite Hlen. symmetry. eapply fitted_length; eauto.
Qed.

Lemma h_bar_loop (l : list nat) :
  forall (σ : store) (g : rng_state G) (m : loc) (s : list float),
  σ !! m = Some s -> length s = dimension M ->
  match result_mapM fit_dataset (map (dataset target) (simulate (length l) g).1) with
  | Raise e => for_each l (h_bar_trial target H) (Some m) (σ, g) = Raise e
  | Ok vs => exists σ' : store,
      for_each l (h_bar_trial target H) (Some m) (σ, g)
      = Ok (Some m, (σ', (simulate (length l) g).2))
      /\ σ' !! m = Some (fold_left (zip_with F64.add) vs s)
      /\ length (fold_left (zip_with F64.add) vs s) = dimension M
      /\ (forall l0 : loc, l0 ∈ dom σ -> l0 <> m -> σ' !! l0 = σ !! l0)
  end.
Proof.
  induction l as [| i l IH]; intros σ g m s Hs Hlen.
  - cbn. exists σ. auto.
  - cbn [length]. rewrite simulate_S. cbn [fst snd map result_mapM for_each].
    unfold bind. rewrite h_bar_trial_run.
    destruct (dataset target (trial_draws g).1) as [[X y] | e]; [| reflexivity].
    cbn [result_bind]. rewrite (accumulate_next m s X y σ _ Hs Hlen).
    destruct (fitted M X y) as [v | e] eqn:Ev; [| reflexivity].
    cbn [result_bind].
    assert (length (zip_with F64.add s v) = dimension M) as Hlen'.
    { rewrite length_zip_with, Hlen, (fitted_length H M HS _ _ _ Ev). lia. }
    specialize (IH (<[m := zip_with F64.add s v]> (<[fresh (dom σ) := v]> σ))
                  (trial_draws g).2 m (zip_with F64.add s v)
                  (lookup_insert_eq _ _ _) Hlen').
    destruct (result_mapM _ _) as [vs | e]; [| exact IH].
    destruct IH as [σ' [Hrun [Hm [Hl Hframe]]]].
    cbn [result_bind fold_left]. exists σ'. repeat split; try assumption.
    intros l0 Hl0 Hne. rewrite Hframe.
    + rewrite lookup_insert_ne by congruence. apply lookup_insert_ne.
      intros <-. now apply (is_fresh (dom σ)).
    + rewrite !dom_insert_L. set_solver.
    + exact Hne.
Qed.

Lemma h_bar_trials_spec (n : nat) (w : world G) :
  match fitted_vectors G target M (S n) with
  | Raise e => h_bar_trials target H (S n) w = Raise e
  | Ok vs => exists σ' : store,
      h_bar_trials target H (S n) w
      = Ok (Some (fresh (dom w.1)), (σ', final_rng G (S n)))
      /\ σ' !! fresh (dom w.1) = Some (vector_sum vs)
      /\ length (vector_sum vs) = dimension M
      /\ (forall l0 : loc, l0 ∈ dom w.1 -> σ' !! l0 = w.1 !! l0)
  end.
Proof.
  destruct w as [σ g0].
  unfold h_bar_trials, fitted_vectors, datasets, final_rng, np_random_seed.
  rewrite bind_on_rng. cbn [fst snd].
  unfold range. cbn [seq for_each]. rewrite simulate_S.
  cbn [fst snd map result_mapM]. unfold bind. rewrite h_bar_trial_run.
  destruct (dataset target (trial_draws (rng_seed G 1)).1) as [[X y] | e];
    [| reflexivity].
  cbn [result_bind]. rewrite accumulate_first.
  destruct (fitted M X y) as [v | e] eqn:Ev; [| reflexivity].
  cbn [result_bind].
  pose proof (h_bar_loop (seq 1 n) (<[fresh (dom σ) := v]> σ)
                (trial_draws (rng_seed G 1)).2 (fresh (dom σ)) v
                (lookup_insert_eq _ _ _) (fitted_length H M HS _ _ _ Ev)) as Hloop.
  rewrite length_seq in Hloop.
  destruct (result_mapM _ _) as [vs | e]; [| exact Hloop].
  destruct Hloop as [σ' [Hrun [Hm [Hl Hframe]]]].
  cbn [result_bind vector_sum]. exists σ'. repeat split; try assumption.
  intros l0 Hl0. rewrite Hframe.
  - apply lookup_insert_ne. intros <-. now apply (is_fresh (dom σ)).
  - rewrite dom_insert_L. set_solver.
  - intros ->. now apply (is_fresh (dom σ)).
Qed.
End StatelessFamily.

Lemma for_each_ext {S I A : Type} (l : list I) (body1 body2 : I -> A -> ST S A) :
  (forall (i : I) (acc : A) (s : S), body1 i acc s = body2 i acc s) ->
  forall (acc : A) (s : S), for_each l body1 acc s = for_each l body2 acc s.
Proof.
  intros Hext. induction l as [| i l IH]; intros acc s; [reflexivity |].
  cbn [for_each]. unfold bind. rewrite Hext.
  destruct (body2 i acc s) as [[acc' s'] | e]; [apply IH | reflexivity].
Qed.

Lemma bind_bind {S A B C : Type} (c : ST S A) (f : A -> ST S B) (k : B -> ST S C)
    (s : S) :
  (let* b := (let* a := c in f a) in k b) s = (let* a := c in let* b := f a in k b) s.
Proof. unfold bind. now destruct (c s) as [[a s'] | e]. Qed.

Lemma bind_cong {S A B : Type} (c c' : ST S A) (f g : A -> ST S B) (s : S) :
  c s = c' s -> (forall (a : A) (s' : S), f a s' = g a s') ->
  (let* a := c in f a) s = (let* a := c' in g a) s.
Proof.
  intros Hc Hf. unfold bind. rewrite Hc.
  destruct (c' s) as [[a s'] | e]; [apply Hf | reflexivity].
Qed.

Lemma estimate_h_bar_run (target : list float -> list float) (H : HypothesisSpace)
    (w : world G) :
  _estimate_h_bar target H w
  = (let* datasets_mean_coef := h_bar_trials target H 1000 in
     match datasets_mean_coef with
     | None => raise TypeError
     | Some mean_coef =>
         run* on_store (np_idiv mean_coef (F64.of_Z 1000)) in
         on_store (assign H mean_coef)
     end) w.
Proof.
  unfold _estimate_h_bar, h_bar_trials. rewrite bind_bind.
  apply bind_cong; [reflexivity |]. intros _ w1.
  apply bind_cong; [| reflexivity].
  apply for_each_ext. intros i acc s.
  unfold h_bar_trial, h_bar_dataset, h_bar_accumulate, bind.
  destruct (np_random_uniform _ _ _ s) as [[X s1] | e]; [| reflexivity].
  destruct (np_random_normal _ _ _ s1) as [[noise s2] | e]; [| reflexivity].
  destruct (of_result _ s2) as [[y s3] | e]; reflexivity.
Qed.

Lemma variance_run (self : BiasVariance) (w : world G) :
  variance self w
  = (let* datasets_variances := variance_trials self 1000 in
     ret (np_mean datasets_variances)) w.
Proof.
  unfold variance, variance_trials. rewrite bind_bind.
  apply bind_cong; [reflexivity |]. intros _ w1.
  apply bind_cong; [| reflexivity].
  apply for_each_ext. intros i acc s.
  unfold variance_trial, variance_dataset, variance_estimate, bind.
  destruct (np_random_uniform _ _ _ s) as [[X s1] | e]; [| reflexivity].
  destruct (np_random_normal _ _ _ s1) as [[noise s2] | e]; [| reflexivity].
  destruct (of_result _ s2) as [[y s3] | e]; reflexivity.
Qed.

Lemma sample_grid_points : sample_grid = Ok grid_points.
Proof. vm_compute. reflexivity. Qed.

Lemma init_run (target : list float -> list float) (H : HypothesisSpace) (w : world G) :
  __init__ target H w
  = result_map (fun r : Predictor * world G =>
                  ({| target := target; hypothesis_class := H;
                      sample_x := grid_points; h_bar := r.1 |}, r.2))
      (_estimate_h_bar target H w).
Proof.
  unfold __init__. fold sample_grid. rewrite sample_grid_points, bind_of_result.
  unfold bind, ret.
  now destruct (_estimate_h_bar target H w) as [[p w'] | e].
Qed.

Section StatelessEstimator.
Variable f : list float -> list float.
Variable H : HypothesisSpace.
Variable M : PureModel.
Hypothesis HS : Stateless H M.

Lemma estimate_h_bar_spec (w : world G) :
  match mean_parameters G f M with
  | Raise e => _estimate_h_bar f H w = Raise e
  | Ok mean => exists (m : loc) (σ : store),
      σ !! m = Some mean
      /\ (m ∉ dom w.1)
      /\ (forall l : loc, l ∈ dom w.1 -> σ !! l = w.1 !! l)
      /\ _estimate_h_bar f H w = on_store (assign H m) (σ, final_rng G 1000)
  end.
Proof.
  rewrite estimate_h_bar_run. unfold mean_parameters.
  pose proof (h_bar_trials_spec f H M HS 999 w) as Htrials.
  change (S 999) with 1000%nat in Htrials.
  destruct (fitted_vectors G f M 1000) as [vs | e]; cbn [result_map result_bind].
  - destruct Htrials as [σ' [Hrun [Hm [Hlen Hframe]]]].
    exists (fresh (dom w.1)), (<[fresh (dom w.1) := vector_mean 1000 vs]> σ').
    split; [apply lookup_insert_eq |]. split; [apply is_fresh |].
    split.
    + intros l Hl. rewrite lookup_insert_ne; [now apply Hframe |].
      intros <-. now apply (is_fresh (dom w.1)).
    + unfold bind at 1. rewrite Hrun. rewrite bind_on_store. cbn [fst snd].
      unfold np_idiv, bind, load, store_at. rewrite Hm. reflexivity.
  - unfold bind. now rewrite Htrials.
Qed.

Lemma constructed_frame (self : BiasVariance) (mean : list float) (m : loc)
    (σ σ' : store) :
  constructed f H M self mean m σ -> σ' !! m = σ !! m -> constructed f H M self mean m σ'.
Proof.
  intros (Ht & HH & Hx & mean' & Hre & Hm & Hread) Heq.
  repeat split; try assumption. exists mean'. repeat split; try assumption.
  now rewrite Heq.
Qed.

Lemma init_spec (w : world G) :
  match result_bind (mean_parameters G f M) (fun mean =>
        result_map (fun _ => mean) (rebound M mean)) with
  | Raise e => __init__ f H w = Raise e
  | Ok mean => exists (self : BiasVariance) (m : loc) (σ : store),
      __init__ f H w = Ok (self, (σ, final_rng G 1000))
      /\ constructed f H M self mean m σ
  end.
Proof.
  rewrite init_run. pose proof (estimate_h_bar_spec w) as Hest.
  destruct (mean_parameters G f M) as [mean | e]; cbn [result_bind];
    [| now rewrite Hest].
  destruct Hest as (m & σ & Hm & _ & _ & ->).
  pose proof (assign_in_place H M HS m mean σ Hm) as Hassign.
  unfold on_store. cbn [fst snd].
  destruct (rebound M mean) as [mean' | e] eqn:Hre; cbn [result_map result_bind];
    [| now rewrite Hassign].
  destruct Hassign as (p & -> & Hread). cbn [result_map result_bind fst snd].
  eexists _, m, _. split; [reflexivity |].
  repeat split. exists mean'. split; [exact Hre |].
  split; [apply lookup_insert_eq | exact Hread].
Qed.

Lemma bias2_spec (self : BiasVariance) (mean : list float) (m : loc) (w : world G) :
  constructed f H M self mean m w.1 ->
  bias2 self w = result_map (fun b => (b, w)) (squared_bias f M grid_points mean).
Proof.
  intros (Ht & HH & Hx & mean' & Hre & Hm & Hread).
  unfold bias2, squared_bias, mean_squared_difference.
  rewrite bind_call, Hx, Ht, (Hread _ _ Hm).
  destruct (predictions M mean grid_points) as [h | e]; [| reflexivity].
  rewrite bind_of_result. cbn [result_bind].
  now destruct (np_subtract h (f grid_points)).
Qed.

Lemma variance_trial_run (self : BiasVariance) (i : nat) (acc : list float)
    (σ : store) (g : rng_state G) :
  variance_trial self i acc (σ, g)
  = result_bind (dataset (target self) (trial_draws g).1) (fun '(X, y) =>
    variance_estimate self acc X y (σ, (trial_draws g).2)).
Proof.
  unfold variance_trial, bind. rewrite variance_dataset_run.
  now destruct (dataset _ _) as [[X y] | e].
Qed.

Lemma variance_estimate_spec (self : BiasVariance) (mean : list float) (m : loc)
    (acc X y : list float) (σ : store) (g : rng_state G) :
  constructed f H M self mean m σ ->
  match trial_variance M mean (Ok (X, y)) with
  | Raise e => variance_estimate self acc X y (σ, g) = Raise e
  | Ok var => exists σ' : store,
      variance_estimate self acc X y (σ, g) = Ok (acc ++ [var], (σ', g))
      /\ σ' !! m = σ !! m
  end.
Proof.
  intros (Ht & HH & Hx & mean' & Hre & Hm & Hread).
  unfold variance_estimate, trial_variance. cbn [result_bind].
  rewrite bind_on_store, HH. cbn [fst snd]. rewrite (train_fresh H M HS).
  destruct (fitted M X y) as [v | e]; [| reflexivity].
  cbn [result_bind alloc].
  assert (m <> fresh (dom σ)) as Hfresh.
  { intros ->. apply (is_fresh (dom σ)). apply elem_of_dom. now exists mean'. }
  rewrite bind_on_store. cbn [fst snd].
  pose proof (assign_in_place H M HS (fresh (dom σ)) v _ (lookup_insert_eq σ _ v))
    as Hassign.
  destruct (rebound M v) as [v' | e]; [| now rewrite Hassign].
  destruct Hassign as (p & -> & Hp). cbn [result_bind].
  rewrite insert_insert_eq.
  rewrite bind_call. cbn [fst snd]. rewrite (Hp _ _ (lookup_insert_eq _ _ _)).
  destruct (predictions M v X) as [t | e]; [| reflexivity].
  cbn [result_bind]. rewrite bind_call. cbn [fst snd].
  rewrite (Hread X); [| now rewrite lookup_insert_ne by congruence].
  destruct (predictions M mean X) as [h | e]; [| reflexivity].
  cbn [result_bind]. rewrite bind_of_result. unfold mean_squared_difference.
  destruct (np_subtract t h) as [d | e]; [| reflexivity].
  cbn [result_map result_bind]. eexists. split; [reflexivity |].
  now rewrite lookup_insert_ne by congruence.
Qed.

Lemma variance_loop (self : BiasVariance) (mean : list float) (m : loc) (l : list nat) :
  forall (σ : store) (g : rng_state G) (acc : list float),
  constructed f H M self mean m σ ->
  match result_mapM (trial_variance M mean)
          (map (dataset f) (simulate (length l) g).1) with
  | Raise e => for_each l (variance_trial self) acc (σ, g) = Raise e
  | Ok vars => exists σ' : store,
      for_each l (variance_trial self) acc (σ, g)
      = Ok (acc ++ vars, (σ', (simulate (length l) g).2))
      /\ σ' !! m = σ !! m
  end.
Proof.
  induction l as [| i l IH]; intros σ g acc Hc.
  - cbn. exists σ. now rewrite app_nil_r.
  - cbn [length]. rewrite simulate_S. cbn [fst snd map result_mapM for_each].
    unfold bind. rewrite variance_trial_run.
    assert (target self = f) as -> by apply Hc.
    pose proof (fun X y => variance_estimate_spec self mean m acc X y σ
                             (trial_draws g).2 Hc) as Hstep.
    destruct (dataset f (trial_draws g).1) as [[X y] | e]; [| reflexivity].
    specialize (Hstep X y). cbn [result_bind].
    destruct (trial_variance M mean (Ok (X, y))) as [var | e];
      [| now rewrite Hstep].
    destruct Hstep as (σ1 & -> & Hm1). cbn [result_bind].
    specialize (IH σ1 (trial_draws g).2 (acc ++ [var])
                  (constructed_frame self mean m σ σ1 Hc Hm1)).
    destruct (result_mapM _ _) as [vars | e]; [| exact IH].
    destruct IH as (σ' & -> & Hm'). cbn [result_bind].
    exists σ'. rewrite <- app_assoc. split; [reflexivity | congruence].
Qed.

Lemma variance_spec (self : BiasVariance) (mean : list float) (m : loc) (w : world G) :
  constructed f H M self mean m w.1 ->
  match variance_estimator G f M mean with
  | Raise e => variance self w = Raise e
  | Ok v => exists σ' : store,
      variance self w = Ok (v, (σ', final_rng G 1000))
      /\ constructed f H M self mean m σ'
  end.
Proof.
  intros Hc. rewrite variance_run. unfold variance_trials, np_random_seed.
  rewrite bind_bind, bind_on_rng. cbn [fst snd].
  pose proof (variance_loop self mean m (range 1000) w.1 (rng_seed G 1) [] Hc)
    as Hloop.
  unfold range in Hloop. rewrite length_seq in Hloop.
  unfold variance_estimator, datasets, final_rng.
  destruct (result_mapM _ _) as [vars | e]; cbn [result_map result_bind].
  - destruct Hloop as (σ' & Hrun & Hm). exists σ'.
    split; [| now apply (constructed_frame self mean m w.1)].
    unfold bind. unfold range. now rewrite Hrun.
  - unfold bind. unfold range. now rewrite Hloop.
Qed.
End StatelessEstimator.
End Passes.

Lemma degree10_stateless (T : Trainer) :
  coef_per_column T -> Stateless (UnRegularized10thModel T) (degree10_model T).
Proof.
  intros HT. split.
  - apply degree10_train_pure.
  - intros X y v. now apply degree10_params_length.
  - intros params v σ Hv.
    destruct v as [| x0 rest];
      cbn [rebound degree10_model assign UnRegularized10thModel].
    + now apply degree10_assign_nil.
    + eexists. split; [apply degree10_assign_cons; exact Hv |].
      intros x σ' Hσ'. unfold degree10_predictor, predict, np_reshape_column.
      cbn [coef_ intercept_ predictions degree10_model].
      destruct (fit_transform 10 x) as [poly_x | e]; [| reflexivity].
      cbn [result_bind]. rewrite Hσ'. reflexivity.
Qed.

Lemma ridge_stateless (Ridge : float -> Trainer) :
  coef_per_column (Ridge (F64.of_Z 2)) ->
  Stateless (Regularized10thModel Ridge) (degree10_model (Ridge (F64.of_Z 2))).
Proof. intros HT. exact (degree10_stateless (Ridge (F64.of_Z 2)) HT). Qed.

(** ** The example instances *)

Lemma zero_family_stateless : Stateless zero_family zero_model.
Proof.
  split.
  - reflexivity.
  - intros X y v [= <-]. reflexivity.
  - intros params v σ Hv. cbn. eexists. split.
    + unfold ret. now rewrite insert_id.
    + reflexivity.
Qed.

Lemma draws_length {R : Type} (draw : R -> float * R) (size : nat) (g : R) :
  length (draws draw size g).1 = size.
Proof.
  revert g. induction size as [| n IH]; intros g; [reflexivity |].
  cbn [draws]. destruct (draw g) as [x g1]. specialize (IH g1).
  destruct (draws draw n g1) as [xs g2]. cbn [fst length] in *. now rewrite IH.
Qed.

Lemma trial_draws_length {G : Generator} (g : rng_state G) :
  length (trial_draws g).1.1 = 200%nat /\ length (trial_draws g).1.2 = 200%nat.
Proof. rewrite trial_draws_eq. cbn [fst snd]. now rewrite !draws_length. Qed.

Lemma dataset_same_length (f : list float -> list float) (d : list float * list float) :
  length (f d.1) = length d.2 ->
  dataset f d = Ok (d.1, zip_with F64.add (f d.1) d.2).
Proof.
  intros Hlen. unfold dataset, np_add, broadcast.
  now rewrite decide_True by exact Hlen.
Qed.

Lemma zero_model_fitted_vectors {G : Generator} (f : list float -> list float)
    (n : nat) (g : rng_state G) :
  (forall x : list float, length (f x) = length x) ->
  result_mapM (fun d => result_bind d (fun '(features, labels) =>
                        fitted zero_model features labels))
    (map (dataset f) (simulate n g).1)
  = Ok (repeat [F64.zero] n).
Proof.
  intros Hf. revert g. induction n as [| n IH]; intros g; [reflexivity |].
  rewrite simulate_S. cbn [fst map result_mapM].
  destruct (trial_draws_length g) as [HX Hnoise].
  rewrite dataset_same_length by (rewrite Hf; congruence).
  cbn [result_bind fitted zero_model]. rewrite IH. reflexivity.
Qed.

Lemma zero_vector_sum (n : nat) :
  fold_left (zip_with F64.add) (repeat [F64.zero] n) [F64.zero] = [F64.zero].
Proof. induction n as [| n IH]; [reflexivity | exact IH]. Qed.

Lemma zero_model_mean {G : Generator} (f : list float -> list float) :
  (forall x : list float, length (f x) = length x) ->
  mean_parameters G f zero_model = Ok [F64.zero].
Proof.
  intros Hf. unfold mean_parameters, fitted_vectors, datasets.
  rewrite (zero_model_fitted_vectors f 1000 _ Hf).
  cbn [result_map result_bind]. unfold vector_mean.
  change (vector_sum (repeat [F64.zero] 1000))
    with (fold_left (zip_with F64.add) (repeat [F64.zero] 999) [F64.zero]).
  rewrite zero_vector_sum. reflexivity.
Qed.

Lemma zero_family_init {G : Generator} (f : list float -> list float) (w : world G) :
  (forall x : list float, length (f x) = length x) ->
  exists (self : BiasVariance) (m : loc) (σ : store),
    __init__ f zero_family w = Ok (self, (σ, final_rng G 1000))
    /\ constructed f zero_family zero_model self [F64.zero] m σ.
Proof.
  intros Hf. pose proof (init_spec f zero_family zero_model zero_family_stateless w)
    as Hinit.
  rewrite (zero_model_mean f Hf) in Hinit. exact Hinit.
Qed.

(** ** The claims about the estimator *)

(** C1.  For a stateless family with pure content [M], the
    mean-hypothesis estimation run at construction, from any state,
    resets the generator to seed 1 and makes 1000 trials: 200 features
    uniform on [-1, 1), 200 Gaussian noise values of standard deviation
    2, labels = target(features) + noise, one fit.  When a trial fails
    the estimation raises; otherwise it ends with a new array [m] that
    holds the element-wise sum of the 1000 fitted vectors divided by
    1000.0, every older array unchanged, and its result is
    [assign] applied to [m]; the constructor caches that predictor as
    [h_bar]. *)
Theorem mean_hypothesis_estimation {G : Generator} (f : list float -> list float)
    (H : HypothesisSpace) (M : PureModel) (w : world G) :
  Stateless H M ->
  match mean_parameters G f M with
  | Raise e => _estimate_h_bar f H w = Raise e
  | Ok mean => exists (m : loc) (σ : store),
      σ !! m = Some mean
      /\ (m ∉ dom w.1)
      /\ (forall l : loc, l ∈ dom w.1 -> σ !! l = w.1 !! l)
      /\ _estimate_h_bar f H w = on_store (assign H m) (σ, final_rng G 1000)
  end
  /\ __init__ f H w
     = result_map (fun r : Predictor * world G =>
                     ({| target := f; hypothesis_class := H;
                         sample_x := grid_points; h_bar := r.1 |}, r.2))
         (_estimate_h_bar f H w).
Proof.
  intros HS. split; [now apply estimate_h_bar_spec | apply init_run].
Qed.

Lemma mean_hypothesis_estimation_witness :
  Stateless zero_family zero_model
  /\ (match mean_parameters counter_generator identity_target zero_model with
      | Raise e => _estimate_h_bar identity_target zero_family empty_world = Raise e
      | Ok mean => exists (m : loc) (σ : store),
          σ !! m = Some mean
          /\ (m ∉ dom empty_world.1)
          /\ (forall l : loc, l ∈ dom empty_world.1 -> σ !! l = empty_world.1 !! l)
          /\ _estimate_h_bar identity_target zero_family empty_world
             = on_store (assign zero_family m) (σ, final_rng counter_generator 1000)
      end
      /\ __init__ identity_target zero_family empty_world
         = result_map (fun r : Predictor * world counter_generator =>
                         ({| target := identity_target; hypothesis_class := zero_family;
                             sample_x := grid_points; h_bar := r.1 |}, r.2))
             (_estimate_h_bar identity_target zero_family empty_world)).
Proof.
  split; [exact zero_family_stateless |].
  exact (mean_hypothesis_estimation identity_target zero_family zero_model
           empty_world zero_family_stateless).
Defined.

Lemma grid_points_range :
  length grid_points = 200%nat
  /\ forallb (fun x => F64.leb (F64.of_Z (-1)) x && F64.ltb x (F64.of_Z 1)) grid_points
     = true.
Proof. split; vm_compute; reflexivity. Qed.

Lemma grid_points_spacing :
  forallb (fun p => near_grid_point p.1 p.2) (zip (seq 0 200) grid_points) = true.
Proof. vm_compute. reflexivity. Qed.

Lemma bias2_run {G : Generator} (self : BiasVariance) (w : world G) :
  bias2 self w
  = result_bind (h_bar self (sample_x self) w.1) (fun h =>
    result_map (fun b => (b, w))
      (mean_squared_difference h (target self (sample_x self)))).
Proof.
  unfold bias2, mean_squared_difference. rewrite bind_call.
  destruct (h_bar self (sample_x self) w.1) as [h | e]; [| reflexivity].
  rewrite bind_of_result. cbn [result_bind].
  now destruct (np_subtract h _).
Qed.

Lemma init_fields {G : Generator} (f : list float -> list float) (H : HypothesisSpace)
    (w w' : world G) (self : BiasVariance) :
  __init__ f H w = Ok (self, w') ->
  target self = f /\ hypothesis_class self = H /\ sample_x self = grid_points.
Proof.
  rewrite init_run. destruct (_estimate_h_bar f H w) as [[p w1] | e]; [| discriminate].
  cbn. intros [= <- _]. auto.
Qed.

(** C2.  For every estimator that the constructor returns, the
    SampleGrid is [np.arange(-1, 1, 0.01)]: 200 points, all in [-1, 1),
    evenly spaced with step 0.01 (the point of index [i] is within
    2^-49 of [-1 + i / 100]).  In any state, [bias2()] evaluates the mean
    hypothesis and the target on the grid and returns [np.mean] of the
    squared element-wise differences: their sum, added pairwise as numpy
    adds the elements of an array, divided by their number.  It leaves
    the state, generator included, as it was, and its result does not
    depend on the generator state. *)
Theorem bias2_grid_mean {G : Generator} (f : list float -> list float)
    (H : HypothesisSpace) (w w' : world G) (self : BiasVariance) :
  __init__ f H w = Ok (self, w') ->
  Ok (sample_x self) = np_arange (F64.of_Z (-1)) (F64.of_Z 1) F64.lit_0_01
  /\ length (sample_x self) = 200%nat
  /\ forallb (fun x => F64.leb (F64.of_Z (-1)) x && F64.ltb x (F64.of_Z 1))
       (sample_x self) = true
  /\ forallb (fun p => near_grid_point p.1 p.2) (zip (seq 0 200) (sample_x self)) = true
  /\ (forall w2 : world G,
        bias2 self w2
        = result_bind (h_bar self (sample_x self) w2.1) (fun h =>
          result_bind (np_subtract h (f (sample_x self))) (fun d =>
          Ok ((np_sum (map (fun x => x * x) d)
               / F64.of_Z (Z.of_nat (length d)))%flt, w2))))
  /\ (forall (σ : store) (g g' : rng_state G),
        outcome (bias2 self (σ, g)) = outcome (bias2 self (σ, g'))).
Proof.
  intros Hinit. destruct (init_fields f H w w' self Hinit) as (Ht & _ & Hx).
  rewrite Hx. fold sample_grid. rewrite sample_grid_points.
  destruct grid_points_range as [Hlen Hrange].
  split; [reflexivity |]. split; [exact Hlen |]. split; [exact Hrange |].
  split; [exact grid_points_spacing |]. split.
  - intros w2. rewrite bias2_run, Hx, Ht.
    destruct (h_bar self grid_points w2.1) as [h | e]; [| reflexivity].
    cbn [result_bind]. unfold mean_squared_difference.
    destruct (np_subtract h (f grid_points)) as [d | e]; [| reflexivity].
    cbn [result_map result_bind]. unfold np_mean, np_square, F64.square.
    now rewrite length_map.
  - intros σ g g'. rewrite !bias2_run. cbn [fst].
    destruct (h_bar self (sample_x self) σ) as [h | e]; [| reflexivity].
    cbn [result_bind]. unfold outcome.
    now destruct (mean_squared_difference h _).
Qed.

Lemma bias2_grid_mean_witness :
  exists (self : BiasVariance) (w' : world counter_generator),
    __init__ identity_target zero_family empty_world = Ok (self, w')
    /\ Ok (sample_x self) = np_arange (F64.of_Z (-1)) (F64.of_Z 1) F64.lit_0_01
    /\ length (sample_x self) = 200%nat
    /\ forallb (fun x => F64.leb (F64.of_Z (-1)) x && F64.ltb x (F64.of_Z 1))
         (sample_x self) = true
    /\ forallb (fun p => near_grid_point p.1 p.2) (zip (seq 0 200) (sample_x self)) = true
    /\ (forall w2 : world counter_generator,
          bias2 self w2
          = result_bind (h_bar self (sample_x self) w2.1) (fun h =>
            result_bind (np_subtract h (identity_target (sample_x self))) (fun d =>
            Ok ((np_sum (map (fun x => x * x) d)
                 / F64.of_Z (Z.of_nat (length d)))%flt, w2))))
    /\ (forall (σ : store) (g g' : rng_state counter_generator),
          outcome (bias2 self (σ, g)) = outcome (bias2 self (σ, g'))).
Proof.
  destruct (zero_family_init identity_target empty_world (fun x => eq_refl))
    as (self & m & σ & Hinit & _).
  exists self, (σ, final_rng counter_generator 1000).
  split; [exact Hinit |].
  exact (bias2_grid_mean identity_target zero_family empty_world _ self Hinit).
Defined.

Lemma init_constructed {G : Generator} (f : list float -> list float)
    (H : HypothesisSpace) (M : PureModel) (w w' : world G) (self : BiasVariance) :
  Stateless H M -> __init__ f H w = Ok (self, w') ->
  exists (mean : list float) (m : loc),
    mean_parameters G f M = Ok mean
    /\ w'.2 = final_rng G 1000
    /\ constructed f H M self mean m w'.1.
Proof.
  intros HS Hinit. pose proof (init_spec f H M HS w) as Hspec.
  destruct (mean_parameters G f M) as [mean | e]; cbn [result_bind] in Hspec;
    [| congruence].
  destruct (rebound M mean) as [mean' | e]; cbn [result_map result_bind] in Hspec;
    [| congruence].
  destruct Hspec as (self0 & m & σ & Hinit0 & Hc).
  rewrite Hinit in Hinit0. injection Hinit0 as -> ->.
  exists mean, m. auto.
Qed.

(** C3.  After a construction with a stateless family, [variance()],
    whatever the generator state it is called in, resets the generator
    to seed 1 and makes 1000 trials on the datasets of the
    mean-hypothesis pass: in each it fits a vector, binds it, and takes
    the mean squared difference between the predictions of the trial
    predictor and of the mean hypothesis on the features of that trial.
    It raises when a trial fails, and otherwise returns the arithmetic
    mean of the 1000 values. *)
Theorem variance_estimation {G : Generator} (f : list float -> list float)
    (H : HypothesisSpace) (M : PureModel) (w w' : world G) (self : BiasVariance) :
  Stateless H M -> __init__ f H w = Ok (self, w') ->
  exists mean : list float,
    mean_parameters G f M = Ok mean
    /\ forall g : rng_state G,
         match variance_estimator G f M mean with
         | Raise e => variance self (w'.1, g) = Raise e
         | Ok v => exists σ' : store,
             variance self (w'.1, g) = Ok (v, (σ', final_rng G 1000))
         end.
Proof.
  intros HS Hinit.
  destruct (init_constructed f H M w w' self HS Hinit) as (mean & m & Hmean & _ & Hc).
  exists mean. split; [exact Hmean |]. intros g.
  pose proof (variance_spec f H M HS self mean m (w'.1, g) Hc) as Hvar.
  destruct (variance_estimator G f M mean) as [v | e]; [| exact Hvar].
  destruct Hvar as (σ' & Hvar & _). now exists σ'.
Qed.

Lemma variance_estimation_witness :
  Stateless zero_family zero_model
  /\ exists (self : BiasVariance) (w' : world counter_generator),
       __init__ identity_target zero_family empty_world = Ok (self, w')
       /\ exists mean : list float,
            mean_parameters counter_generator identity_target zero_model = Ok mean
            /\ forall g : rng_state counter_generator,
                 match variance_estimator counter_generator identity_target
                         zero_model mean with
                 | Raise e => variance self (w'.1, g) = Raise e
                 | Ok v => exists σ' : store,
                     variance self (w'.1, g)
                     = Ok (v, (σ', final_rng counter_generator 1000))
                 end.
Proof.
  split; [exact zero_family_stateless |].
  destruct (zero_family_init identity_target empty_world (fun x => eq_refl))
    as (self & m & σ & Hinit & _).
  exists self, (σ, final_rng counter_generator 1000).
  split; [exact Hinit |].
  exact (variance_estimation identity_target zero_family zero_model empty_world _ self
           zero_family_stateless Hinit).
Defined.

Lemma report_spec {G : Generator} (f : list float -> list float) (H : HypothesisSpace)
    (M : PureModel) (w : world G) :
  Stateless H M -> outcome (report f H w) = report_value G f M.
Proof.
  intros HS. unfold report, report_value, outcome.
  pose proof (init_spec f H M HS w) as Hinit.
  unfold bind at 1.
  destruct (mean_parameters G f M) as [mean | e]; cbn [result_bind] in *;
    [| now rewrite Hinit].
  destruct (rebound M mean) as [mean' | e] eqn:Hre; cbn [result_map result_bind] in *;
    [| now rewrite Hinit].
  destruct Hinit as (self & m & σ & -> & Hc).
  unfold bind at 1. rewrite (bias2_spec f H M self mean m (σ, final_rng G 1000) Hc).
  destruct (squared_bias f M grid_points mean) as [b | e]; [| reflexivity].
  cbn [result_map result_bind]. unfold bind at 1.
  pose proof (variance_spec f H M HS self mean m (σ, final_rng G 1000) Hc) as Hvar.
  destruct (variance_estimator G f M mean) as [v | e]; [| now rewrite Hvar].
  destruct Hvar as (σ' & -> & _). reflexivity.
Qed.

(** C7.  For a stateless family, two runs of construction, [bias2()]
    and [variance()] from any two states (arrays and generator) have the
    same outcome: the same exception, or the same pair of estimates.
    Two constructions either both fail, with the same exception, or
    leave in the arrays that their mean hypotheses read the same
    vector, computed from the same mean vector, and their mean
    hypotheses predict alike. *)
Theorem two_run_determinism {G : Generator} (f : list float -> list float)
    (H : HypothesisSpace) (M : PureModel) (wa wb : world G) :
  Stateless H M ->
  outcome (report f H wa) = outcome (report f H wb)
  /\ match __init__ f H wa, __init__ f H wb with
     | Ok (selfa, wa'), Ok (selfb, wb') =>
         exists (mean mean' : list float) (ma mb : loc),
           mean_parameters G f M = Ok mean
           /\ wa'.1 !! ma = Some mean' /\ wb'.1 !! mb = Some mean'
           /\ (forall (x : list float) (σ : store),
                 σ !! ma = Some mean' -> h_bar selfa x σ = predictions M mean x)
           /\ (forall (x : list float) (σ : store),
                 σ !! mb = Some mean' -> h_bar selfb x σ = predictions M mean x)
           /\ outcome (bias2 selfa wa') = outcome (bias2 selfb wb')
           /\ outcome (variance selfa wa') = outcome (variance selfb wb')
     | Raise ea, Raise eb => ea = eb
     | _, _ => False
     end.
Proof.
  intros HS. split; [now rewrite !(report_spec f H M _ HS) |].
  pose proof (init_spec f H M HS wa) as Ha.
  pose proof (init_spec f H M HS wb) as Hb.
  destruct (mean_parameters G f M) as [mean | e]; cbn [result_bind] in *;
    [| now rewrite Ha, Hb].
  destruct (rebound M mean) as [mean' | e] eqn:Hre; cbn [result_map result_bind] in *;
    [| now rewrite Ha, Hb].
  destruct Ha as (selfa & ma & σa & -> & Hca).
  destruct Hb as (selfb & mb & σb & -> & Hcb).
  pose proof Hca as (_ & _ & _ & mean'a & Hrea & Hma & Hreada).
  pose proof Hcb as (_ & _ & _ & mean'b & Hreb & Hmb & Hreadb).
  assert (mean'a = mean') as -> by congruence.
  assert (mean'b = mean') as -> by congruence.
  exists mean, mean', ma, mb. cbn [fst].
  split; [reflexivity |]. split; [exact Hma |]. split; [exact Hmb |].
  split; [exact Hreada |]. split; [exact Hreadb |]. split.
  - rewrite (bias2_spec f H M selfa mean ma (σa, final_rng G 1000) Hca),
      (bias2_spec f H M selfb mean mb (σb, final_rng G 1000) Hcb).
    unfold outcome. now destruct (squared_bias _ _ _ _).
  - pose proof (variance_spec f H M HS selfa mean ma (σa, final_rng G 1000) Hca) as Hva.
    pose proof (variance_spec f H M HS selfb mean mb (σb, final_rng G 1000) Hcb) as Hvb.
    destruct (variance_estimator G f M mean) as [v | e]; [| now rewrite Hva, Hvb].
    destruct Hva as (σa' & -> & _). destruct Hvb as (σb' & -> & _). reflexivity.
Qed.

Lemma two_run_determinism_witness :
  Stateless zero_family zero_model
  /\ outcome (report identity_target zero_family empty_world)
     = outcome (report (G := counter_generator) identity_target zero_family
                  ({[3%positive := [F64.of_Z 1]]}, 50))
  /\ match __init__ identity_target zero_family empty_world,
           __init__ (G := counter_generator) identity_target zero_family
             ({[3%positive := [F64.of_Z 1]]}, 50) with
     | Ok (selfa, wa'), Ok (selfb, wb') =>
         exists (mean mean' : list float) (ma mb : loc),
           mean_parameters counter_generator identity_target zero_model = Ok mean
           /\ wa'.1 !! ma = Some mean' /\ wb'.1 !! mb = Some mean'
           /\ (forall (x : list float) (σ : store),
                 σ !! ma = Some mean' ->
                 h_bar selfa x σ = predictions zero_model mean x)
           /\ (forall (x : list float) (σ : store),
                 σ !! mb = Some mean' ->
                 h_bar selfb x σ = predictions zero_model mean x)
           /\ outcome (bias2 selfa wa') = outcome (bias2 selfb wb')
           /\ outcome (variance selfa wa') = outcome (variance selfb wb')
     | Raise ea, Raise eb => ea = eb
     | _, _ => False
     end.
Proof.
  split; [exact zero_family_stateless |].
  exact (two_run_determinism identity_target zero_family zero_model empty_world
           (({[3%positive := [F64.of_Z 1]]} : store), 50%Z) zero_family_stateless).
Defined.

(** ** The generator state along the two passes *)

Section GeneratorState.
Context {G : Generator}.

Lemma h_bar_accumulate_rng (H : HypothesisSpace) (acc acc' : option loc)
    (X y : list float) (w w' : world G) :
  h_bar_accumulate H acc X y w = Ok (acc', w') -> w'.2 = w.2.
Proof.
  unfold h_bar_accumulate. rewrite bind_on_store.
  destruct (train H X y w.1) as [[params σ1] | e]; [| discriminate].
  destruct acc as [m |].
  - rewrite bind_on_store. cbn [fst snd].
    destruct (np_iadd m params σ1) as [[u σ2] | e]; [| discriminate].
    unfold ret. now intros [= _ <-].
  - unfold ret. now intros [= _ <-].
Qed.

Lemma variance_estimate_rng (self : BiasVariance) (acc acc' X y : list float)
    (w w' : world G) :
  variance_estimate self acc X y w = Ok (acc', w') -> w'.2 = w.2.
Proof.
  unfold variance_estimate. rewrite bind_on_store.
  destruct (train _ X y w.1) as [[params σ1] | e]; [| discriminate].
  rewrite bind_on_store. cbn [fst snd].
  destruct (assign _ params σ1) as [[p σ2] | e]; [| discriminate].
  rewrite bind_call. cbn [fst snd].
  destruct (p X σ2) as [t | e]; [| discriminate].
  rewrite bind_call. cbn [fst snd].
  destruct (h_bar self X σ2) as [h | e]; [| discriminate].
  rewrite bind_of_result.
  destruct (np_subtract t h) as [d | e]; [| discriminate].
  unfold ret. now intros [= _ <-].
Qed.

Lemma h_bar_loop_rng (f : list float -> list float) (H : HypothesisSpace) (l : list nat) :
  forall (acc acc' : option loc) (w w' : world G),
  for_each l (h_bar_trial f H) acc w = Ok (acc', w') ->
  w'.2 = (simulate (length l) w.2).2.
Proof.
  induction l as [| i l IH]; intros acc acc' w w'.
  - cbn. unfold ret. now intros [= _ <-].
  - cbn [for_each length]. rewrite simulate_S. cbn [snd]. unfold bind.
    destruct w as [σ g]. rewrite h_bar_trial_run.
    destruct (dataset f _) as [[X y] | e]; [| discriminate]. cbn [result_bind].
    destruct (h_bar_accumulate H acc X y _) as [[acc1 w1] | e] eqn:E; [| discriminate].
    apply h_bar_accumulate_rng in E. cbn [snd] in E.
    intros Hrest. apply IH in Hrest. now rewrite Hrest, E.
Qed.

Lemma variance_loop_rng (self : BiasVariance) (l : list nat) :
  forall (acc acc' : list float) (w w' : world G),
  for_each l (variance_trial self) acc w = Ok (acc', w') ->
  w'.2 = (simulate (length l) w.2).2.
Proof.
  induction l as [| i l IH]; intros acc acc' w w'.
  - cbn. unfold ret. now intros [= _ <-].
  - cbn [for_each length]. rewrite simulate_S. cbn [snd]. unfold bind.
    destruct w as [σ g]. rewrite variance_trial_run.
    destruct (dataset _ _) as [[X y] | e]; [| discriminate]. cbn [result_bind].
    destruct (variance_estimate self acc X y _) as [[acc1 w1] | e] eqn:E;
      [| discriminate].
    apply variance_estimate_rng in E. cbn [snd] in E.
    intros Hrest. apply IH in Hrest. now rewrite Hrest, E.
Qed.

Lemma h_bar_trials_rng (f : list float -> list float) (H : HypothesisSpace) (n : nat)
    (acc : option loc) (w w' : world G) :
  h_bar_trials f H n w = Ok (acc, w') -> w'.2 = final_rng G n.
Proof.
  unfold h_bar_trials, np_random_seed. rewrite bind_on_rng. cbn [fst snd].
  intros Hloop. apply h_bar_loop_rng in Hloop.
  unfold range in Hloop. now rewrite length_seq in Hloop.
Qed.

Lemma variance_trials_rng (self : BiasVariance) (n : nat) (acc : list float)
    (w w' : world G) :
  variance_trials self n w = Ok (acc, w') -> w'.2 = final_rng G n.
Proof.
  unfold variance_trials, np_random_seed. rewrite bind_on_rng. cbn [fst snd].
  intros Hloop. apply variance_loop_rng in Hloop.
  unfold range in Hloop. now rewrite length_seq in Hloop.
Qed.

Lemma simulate_lookup (n i : nat) (g : rng_state G) :
  (i < n)%nat ->
  (simulate n g).1 !! i = Some (trial_draws (simulate i g).2).1.
Proof.
  revert i g. induction n as [| n IH]; intros i g Hi; [lia |].
  rewrite simulate_S. cbn [fst]. destruct i as [| i]; [reflexivity |].
  cbn [lookup list_lookup]. rewrite simulate_S. cbn [snd].
  apply IH. lia.
Qed.

Lemma range_split (n i : nat) :
  (i < n)%nat -> range n = range i ++ i :: seq (S i) (n - S i).
Proof.
  intros Hi. unfold range.
  replace n with (i + S (n - S i))%nat at 1 by lia.
  now rewrite seq_app.
Qed.
End GeneratorState.

Lemma outcome_h_bar_dataset {G : Generator} (f : list float -> list float)
    (w : world G) :
  outcome (h_bar_dataset f w) = dataset f (trial_draws w.2).1.
Proof.
  destruct w as [σ g]. rewrite h_bar_dataset_run. unfold outcome. cbn [snd].
  now destruct (dataset f _).
Qed.

Lemma outcome_variance_dataset {G : Generator} (self : BiasVariance) (w : world G) :
  outcome (variance_dataset self w) = dataset (target self) (trial_draws w.2).1.
Proof. apply outcome_h_bar_dataset. Qed.

Lemma lookup_map {A B : Type} (g : A -> B) (l : list A) (i : nat) :
  map g l !! i = option_map g (l !! i).
Proof.
  revert i. induction l as [| a l IH]; intros [| i]; try reflexivity. apply IH.
Qed.

Section ReplayLoops.
Context {G : Generator}.

Lemma simulate_length (n : nat) (g : rng_state G) : length (simulate n g).1 = n.
Proof.
  revert g. induction n as [| n IH]; intros g; [reflexivity |].
  rewrite simulate_S. cbn [fst length]. now rewrite IH.
Qed.

Lemma trace_datasets (f : list float -> list float) (n : nat) (g : rng_state G) :
  map fst (dataset_trace_from f n g) = map (dataset f) (simulate n g).1.
Proof.
  revert g. induction n as [| n IH]; intros g; [reflexivity |].
  rewrite simulate_S. cbn [dataset_trace_from fst map].
  destruct (trial_draws g) as [d g1]. cbn [fst snd map]. now rewrite IH.
Qed.

Lemma replay_cons {A : Type} (d : result (list float * list float)) (g1 : rng_state G)
    (trace : list (result (list float * list float) * rng_state G))
    (rest : A -> list float -> list float -> ST (world G) A) (acc : A) (w : world G) :
  replay ((d, g1) :: trace) rest acc w
  = match d with
    | Ok (X, y) => (let* acc' := rest acc X y in replay trace rest acc') (w.1, g1)
    | Raise e => Raise e
    end.
Proof.
  unfold replay. cbn [for_each fst snd].
  rewrite bind_bind, bind_on_rng. cbn [fst snd].
  rewrite bind_bind, bind_of_result. now destruct d as [[X y] | e].
Qed.

Lemma replay_loop {A : Type} (f : list float -> list float)
    (rest : A -> list float -> list float -> ST (world G) A) :
  (forall (acc : A) (X y : list float) (w : world G) (acc' : A) (w' : world G),
     rest acc X y w = Ok (acc', w') -> w'.2 = w.2) ->
  forall (l : list nat) (acc : A) (w : world G),
    for_each l (fun _ acc => let* '(X, y) := h_bar_dataset f in rest acc X y) acc w
    = replay (dataset_trace_from f (length l) w.2) rest acc w.
Proof.
  intros Hrest. induction l as [| i l IH]; intros acc [σ g]; [reflexivity |].
  cbn [length dataset_trace_from snd for_each].
  rewrite bind_bind. unfold bind at 1. rewrite h_bar_dataset_run.
  destruct (trial_draws g) as [d g1]. cbn [fst snd].
  rewrite replay_cons. cbn [fst].
  destruct (dataset f d) as [[X y] | e]; [| reflexivity].
  cbv beta iota delta [result_map result_bind bind].
  destruct (rest acc X y (σ, g1)) as [[acc1 w1] | e] eqn:E; [| reflexivity].
  apply Hrest in E. cbn [snd] in E. rewrite IH, E. reflexivity.
Qed.

Lemma estimate_h_bar_replay (f : list float -> list float) (H : HypothesisSpace)
    (w : world G) :
  _estimate_h_bar f H w
  = (run* np_random_seed 1 in
     let* datasets_mean_coef :=
       replay (dataset_trace G f 1000) (h_bar_accumulate H) None in
     match datasets_mean_coef with
     | None => raise TypeError
     | Some mean_coef =>
         run* on_store (np_idiv mean_coef (F64.of_Z 1000)) in
         on_store (assign H mean_coef)
     end) w.
Proof.
  rewrite estimate_h_bar_run. unfold h_bar_trials, np_random_seed.
  rewrite bind_bind, !bind_on_rng. cbn [fst snd].
  apply bind_cong; [| reflexivity].
  pose proof (replay_loop f (h_bar_accumulate H)
                (fun acc X y w0 acc' w' => h_bar_accumulate_rng H acc acc' X y w0 w')
                (range 1000) None (w.1, rng_seed G 1)) as Hloop.
  unfold range in Hloop. rewrite length_seq in Hloop. exact Hloop.
Qed.

Lemma variance_replay (self : BiasVariance) (w : world G) :
  variance self w
  = (run* np_random_seed 1 in
     let* datasets_variances :=
       replay (dataset_trace G (target self) 1000) (variance_estimate self) [] in
     ret (np_mean datasets_variances)) w.
Proof.
  rewrite variance_run. unfold variance_trials, np_random_seed.
  rewrite bind_bind, !bind_on_rng. cbn [fst snd].
  apply bind_cong; [| reflexivity].
  pose proof (replay_loop (target self) (variance_estimate self)
                (fun acc X y w0 acc' w' => variance_estimate_rng self acc acc' X y w0 w')
                (range 1000) [] (w.1, rng_seed G 1))
    as Hloop.
  unfold range in Hloop. rewrite length_seq in Hloop. exact Hloop.
Qed.
End ReplayLoops.

Lemma first_label_family_stateless : Stateless first_label_family first_label_model.
Proof.
  split.
  - reflexivity.
  - intros X y v [= <-]. reflexivity.
  - intros params v σ Hv.
    cbn [rebound predictions first_label_model assign first_label_family].
    eexists. split.
    + unfold ret. now rewrite insert_id.
    + intros x σ' Hσ'. cbn beta. now rewrite Hσ'.
Qed.

Lemma first_label_fitted_vectors {G : Generator} (f : list float -> list float)
    (n : nat) (g : rng_state G) :
  (forall x : list float, length (f x) = length x) ->
  exists vs : list (list float),
    result_mapM (fun d => result_bind d (fun '(features, labels) =>
                          fitted first_label_model features labels))
      (map (dataset f) (simulate n g).1)
    = Ok vs.
Proof.
  intros Hf. revert g. induction n as [| n IH]; intros g; [now eexists |].
  rewrite simulate_S. cbn [fst map result_mapM].
  destruct (trial_draws_length g) as [HX Hnoise].
  rewrite dataset_same_length by (rewrite Hf; congruence).
  destruct (IH (trial_draws g).2) as [vs ->].
  cbn [result_bind fitted first_label_model]. now eexists.
Qed.

Lemma first_label_family_init {G : Generator} (f : list float -> list float)
    (w : world G) :
  (forall x : list float, length (f x) = length x) ->
  exists (self : BiasVariance) (mean : list float) (m : loc) (σ : store),
    __init__ f first_label_family w = Ok (self, (σ, final_rng G 1000))
    /\ constructed f first_label_family first_label_model self mean m σ.
Proof.
  intros Hf.
  pose proof (init_spec f first_label_family first_label_model
                first_label_family_stateless w) as Hinit.
  unfold mean_parameters, fitted_vectors, datasets in Hinit.
  destruct (first_label_fitted_vectors f 1000 (rng_seed G 1) Hf) as [vs Hvs].
  rewrite Hvs in Hinit. cbn [result_map result_bind rebound first_label_model] in Hinit.
  destruct Hinit as (self & m & σ & Hinit & Hc).
  eexists self, _, m, σ. split; [exact Hinit | exact Hc].
Qed.

(** C8.  Both passes take their datasets from one sequence.  For every
    estimator that the constructor returns from target [f] and family
    [H], the mean-hypothesis estimation [_estimate_h_bar] is the loop
    that, after the reset to seed 1, hands the 1000 entries of the trace
    [dataset_trace G f 1000], in order, to the statements that follow
    the generation (the fit and the accumulation), and [variance()] is
    the loop that hands the same 1000 entries, in the same order, to the
    statements that follow the generation there (fit, binding, the two
    predictions, the mean squared difference), in each trial with the
    generator in the state that the trial's draws leave.  The datasets of
    the trace are the sequence [datasets G f 1000] that seed 1
    determines, 1000 (features, labels) pairs.  Trial for trial:
    whenever the two passes both get through their first [i] trials,
    from whatever states, the generation statements of trial [i]
    produce the same dataset in both, entry [i] of that sequence.  The
    statements that follow the generation leave the generator state as
    it is: the families of this development act on the arrays and, like
    the two families of the notebook, draw nothing from the
    generator. *)
Theorem datasets_identical {G : Generator} (f : list float -> list float)
    (H : HypothesisSpace) (w w' : world G) (self : BiasVariance) :
  __init__ f H w = Ok (self, w') ->
  map fst (dataset_trace G f 1000) = datasets G f 1000
  /\ length (datasets G f 1000) = 1000%nat
  /\ (forall w1 : world G,
        _estimate_h_bar f H w1
        = (run* np_random_seed 1 in
           let* datasets_mean_coef :=
             replay (dataset_trace G f 1000) (h_bar_accumulate H) None in
           match datasets_mean_coef with
           | None => raise TypeError
           | Some mean_coef =>
               run* on_store (np_idiv mean_coef (F64.of_Z 1000)) in
               on_store (assign H mean_coef)
           end) w1)
  /\ (forall w2 : world G,
        variance self w2
        = (run* np_random_seed 1 in
           let* datasets_variances :=
             replay (dataset_trace G f 1000) (variance_estimate self) [] in
           ret (np_mean datasets_variances)) w2)
  /\ (forall (i : nat) (wa wb wa' wb' : world G) (acca : option loc)
             (accb : list float),
        (i < 1000)%nat ->
        h_bar_trials f H i wa = Ok (acca, wa') ->
        variance_trials self i wb = Ok (accb, wb') ->
        outcome (h_bar_dataset f wa') = outcome (variance_dataset self wb')
        /\ datasets G f 1000 !! i = Some (outcome (h_bar_dataset f wa')))
  /\ (forall (acc acc' : option loc) (X y : list float) (w1 w1' : world G),
        h_bar_accumulate H acc X y w1 = Ok (acc', w1') -> w1'.2 = w1.2)
  /\ (forall (acc acc' X y : list float) (w2 w2' : world G),
        variance_estimate self acc X y w2 = Ok (acc', w2') -> w2'.2 = w2.2).
Proof.
  intros Hinit. destruct (init_fields f H w w' self Hinit) as (Ht & _ & _).
  split; [apply trace_datasets |].
  split; [unfold datasets; now rewrite length_map, simulate_length |].
  split; [intros w1; apply estimate_h_bar_replay |].
  split; [intros w2; rewrite <- Ht; apply variance_replay |].
  split; [| split; [apply h_bar_accumulate_rng | apply variance_estimate_rng]].
  intros i wa wb wa' wb' acca accb Hi Ha Hb.
  apply h_bar_trials_rng in Ha. apply variance_trials_rng in Hb.
  rewrite outcome_h_bar_dataset, outcome_variance_dataset, Ht, Ha, Hb.
  split; [reflexivity |].
  unfold datasets. rewrite lookup_map, (simulate_lookup 1000 i _ Hi). reflexivity.
Qed.

Lemma datasets_identical_witness :
  exists (self : BiasVariance) (w' : world counter_generator),
    __init__ identity_target first_label_family empty_world = Ok (self, w')
    /\ map fst (dataset_trace counter_generator identity_target 1000)
       = datasets counter_generator identity_target 1000
    /\ length (datasets counter_generator identity_target 1000) = 1000%nat
    /\ (forall w1 : world counter_generator,
          _estimate_h_bar identity_target first_label_family w1
          = (run* np_random_seed 1 in
             let* datasets_mean_coef :=
               replay (dataset_trace counter_generator identity_target 1000)
                 (h_bar_accumulate first_label_family) None in
             match datasets_mean_coef with
             | None => raise TypeError
             | Some mean_coef =>
                 run* on_store (np_idiv mean_coef (F64.of_Z 1000)) in
                 on_store (assign first_label_family mean_coef)
             end) w1)
    /\ (forall w2 : world counter_generator,
          variance self w2
          = (run* np_random_seed 1 in
             let* datasets_variances :=
               replay (dataset_trace counter_generator identity_target 1000)
                 (variance_estimate self) [] in
             ret (np_mean datasets_variances)) w2)
    /\ (forall (i : nat) (wa wb wa' wb' : world counter_generator)
               (acca : option loc) (accb : list float),
          (i < 1000)%nat ->
          h_bar_trials identity_target first_label_family i wa = Ok (acca, wa') ->
          variance_trials self i wb = Ok (accb, wb') ->
          outcome (h_bar_dataset identity_target wa')
          = outcome (variance_dataset self wb')
          /\ datasets counter_generator identity_target 1000 !! i
             = Some (outcome (h_bar_dataset identity_target wa')))
    /\ (forall (acc acc' : option loc) (X y : list float)
               (w1 w1' : world counter_generator),
          h_bar_accumulate first_label_family acc X y w1 = Ok (acc', w1') ->
          w1'.2 = w1.2)
    /\ (forall (acc acc' X y : list float) (w2 w2' : world counter_generator),
          variance_estimate self acc X y w2 = Ok (acc', w2') -> w2'.2 = w2.2).
Proof.
  destruct (first_label_family_init identity_target empty_world (fun x => eq_refl))
    as (self & mean & m & σ & Hinit & _).
  exists self, (σ, final_rng counter_generator 1000). split; [exact Hinit |].
  exact (datasets_identical identity_target first_label_family empty_world _
           self Hinit).
Defined.


(** ** Signs of the estimates *)

Lemma np_subtract_same_length (a b : list float) :
  length a = length b -> np_subtract a b = Ok (zip_with F64.sub a b).
Proof. intros Hlen. unfold np_subtract, broadcast. now rewrite decide_True. Qed.










Section Signs.
Context {G : Generator}.






End Signs.





(** The premises of the amended C4 hold of the example family: its
    predictors are finite-valued, and on the grid its mean hypothesis
    and the identity target are finite. *)
Lemma zero_family_finite_valued (params : loc) (σ σ' : store) (p : Predictor) :
  assign zero_family params σ = Ok (p, σ') -> finite_valued p.
Proof.
  cbn. unfold ret. intros [= <- _] x out σ0 [= <-].
  rewrite length_map. split; [reflexivity |].
  induction x as [| a x IH]; [reflexivity | exact IH].
Qed.

Lemma grid_points_finite : forallb F64.is_finite grid_points = true.
Proof. vm_compute. reflexivity. Qed.

(** Point [i] of the SampleGrid is within 2^-49 of [-1 + i / 100]. *)
(** * Further properties of the code *)

(** ** Failures at construction *)

Section FirstTrial.
Context {G : Generator}.

(** The first trial of the mean-hypothesis pass, and what follows it. *)
Lemma h_bar_trials_first (f : list float -> list float) (H : HypothesisSpace) (n : nat)
    (w : world G) :
  h_bar_trials f H (S n) w
  = result_bind (dataset f (trial_draws (rng_seed G 1)).1) (fun '(X, y) =>
    match train H X y w.1 with
    | Ok (m, σ1) =>
        for_each (seq 1 n) (h_bar_trial f H) (Some m)
          (σ1, (trial_draws (rng_seed G 1)).2)
    | Raise e => Raise e
    end).
Proof.
  destruct w as [σ g]. unfold h_bar_trials, np_random_seed.
  rewrite bind_on_rng. cbn [fst snd]. unfold range. cbn [seq for_each].
  unfold bind. rewrite h_bar_trial_run.
  destruct (dataset f _) as [[X y] | e]; [| reflexivity]. cbn [result_bind].
  unfold h_bar_accumulate. rewrite bind_on_store. cbn [fst snd].
  now destruct (train H X y σ) as [[m σ1] | e].
Qed.

Lemma init_raises (f : list float -> list float) (H : HypothesisSpace) (w : world G)
    (e : exn) :
  h_bar_trials f H 1000 w = Raise e -> __init__ f H w = Raise e.
Proof.
  intros Htrials. rewrite init_run, estimate_h_bar_run. unfold bind.
  now rewrite Htrials.
Qed.

Lemma dataset_error (f : list float -> list float) (d : list float * list float)
    (e : exn) :
  dataset f d = Raise e -> e = ValueError.
Proof.
  unfold dataset, np_add, broadcast.
  destruct (decide _); [discriminate |].
  destruct (f d.1) as [| a [| a' l]]; destruct d.2 as [| b [| b' l']];
    cbn; congruence.
Qed.
End FirstTrial.

(** X1.  An estimator cannot be built on a family whose [train] always
    raises, as that of the abstract class [HypothesisSpace] does:
    construction raises the exception of [train] when the labels of the
    first trial can be formed, and [ValueError] otherwise; in no state
    does it return an estimator.  With a target that returns one value
    per input the exception is that of [train]. *)
Theorem failing_train_fails_construction {G : Generator}
    (f : list float -> list float) (H : HypothesisSpace) (e : exn) (w : world G) :
  (forall (X y : list float) (σ : store), train H X y σ = Raise e) ->
  (__init__ f H w = Raise e \/ __init__ f H w = Raise ValueError)
  /\ ((forall x : list float, length (f x) = length x) -> __init__ f H w = Raise e).
Proof.
  intros Htrain.
  assert (h_bar_trials f H 1000 w
          = result_bind (dataset f (trial_draws (rng_seed G 1)).1)
              (fun _ => Raise e)) as Htrials.
  { change 1000%nat with (S 999). rewrite h_bar_trials_first.
    destruct (dataset f _) as [[X y] | e0]; [| reflexivity].
    cbn [result_bind]. now rewrite Htrain. }
  split.
  - destruct (dataset f (trial_draws (rng_seed G 1)).1) as [[X y] | e0] eqn:Ed;
      cbn [result_bind] in Htrials.
    + left. now apply init_raises.
    + right. apply init_raises. now rewrite Htrials, (dataset_error _ _ _ Ed).
  - intros Hf. apply init_raises. rewrite Htrials.
    destruct (trial_draws_length (rng_seed G 1)) as [HX Hnoise].
    rewrite dataset_same_length by (rewrite Hf; congruence). reflexivity.
Qed.

Lemma failing_train_fails_construction_witness :
  (forall (X y : list float) (σ : store),
     train HypothesisSpace_base X y σ = Raise NotImplementedError)
  /\ (__init__ identity_target HypothesisSpace_base empty_world
      = Raise NotImplementedError
      \/ __init__ identity_target HypothesisSpace_base empty_world = Raise ValueError)
  /\ ((forall x : list float, length (identity_target x) = length x) ->
      __init__ identity_target HypothesisSpace_base empty_world
      = Raise NotImplementedError).
Proof.
  split; [reflexivity |].
  apply (failing_train_fails_construction identity_target HypothesisSpace_base
           NotImplementedError empty_world).
  reflexivity.
Defined.

(** X2.  When the target returns, for the 200 features of a trial, an
    array that has neither 200 entries nor one, the labels cannot be
    formed: construction raises [ValueError] in the first trial, for
    every family, before [train] is called. *)
Theorem target_shape_error {G : Generator} (f : list float -> list float)
    (H : HypothesisSpace) (w : world G) :
  (forall x : list float, length x = 200%nat ->
     length (f x) <> 200%nat /\ length (f x) <> 1%nat) ->
  __init__ f H w = Raise ValueError.
Proof.
  intros Hf. apply init_raises. change 1000%nat with (S 999).
  rewrite h_bar_trials_first.
  destruct (trial_draws_length (rng_seed G 1)) as [HX Hnoise].
  destruct (Hf _ HX) as [H200 H1].
  unfold dataset, np_add, broadcast.
  rewrite decide_False by congruence.
  destruct (f (trial_draws (rng_seed G 1)).1.1) as [| a [| a' l]];
    [| cbn in H1; congruence |];
    (destruct (trial_draws (rng_seed G 1)).1.2 as [| b [| b' l']];
     [reflexivity | cbn in Hnoise; discriminate | reflexivity]).
Qed.

Lemma target_shape_error_witness :
  (forall x : list float, length x = 200%nat ->
     length ((fun _ : list float => @nil float) x) <> 200%nat
     /\ length ((fun _ : list float => @nil float) x) <> 1%nat)
  /\ __init__ (fun _ => []) zero_family empty_world = Raise ValueError.
Proof.
  split; [intros x _; split; discriminate |].
  apply (target_shape_error (fun _ => []) zero_family empty_world).
  intros x _. split; discriminate.
Defined.

(** ** What the passes do to the generator and to the family's arrays *)

Section SideEffects.
Context {G : Generator}.

Lemma h_bar_loop_accumulator (f : list float -> list float) (H : HypothesisSpace)
    (l : list nat) :
  forall (m : loc) (acc : option loc) (w w' : world G),
  for_each l (h_bar_trial f H) (Some m) w = Ok (acc, w') -> acc = Some m.
Proof.
  induction l as [| i l IH]; intros m acc w w'.
  - cbn. unfold ret. now intros [= <- _].
  - cbn [for_each]. unfold bind. destruct w as [σ g]. rewrite h_bar_trial_run.
    destruct (dataset f _) as [[X y] | e]; [| discriminate]. cbn [result_bind].
    unfold h_bar_accumulate. rewrite bind_on_store. cbn [fst snd].
    destruct (train H X y σ) as [[params σ1] | e]; [| discriminate].
    rewrite bind_on_store. cbn [fst snd].
    destruct (np_iadd m params σ1) as [[u σ2] | e]; [| discriminate].
    unfold ret. apply IH.
Qed.

Lemma estimate_h_bar_inv (f : list float -> list float) (H : HypothesisSpace)
    (w w' : world G) (p : Predictor) :
  _estimate_h_bar f H w = Ok (p, w') ->
  exists (m : loc) (wt : world G) (σ : store),
    h_bar_trials f H 1000 w = Ok (Some m, wt)
    /\ np_idiv m (F64.of_Z 1000) wt.1 = Ok (tt, σ)
    /\ assign H m σ = Ok (p, w'.1)
    /\ w'.2 = wt.2.
Proof.
  rewrite estimate_h_bar_run. unfold bind at 1.
  destruct (h_bar_trials f H 1000 w) as [[[m |] wt] | e]; [| discriminate ..].
  rewrite bind_on_store.
  destruct (np_idiv m _ wt.1) as [[[] σ] | e] eqn:Hdiv; [| discriminate].
  unfold on_store. cbn [fst snd].
  destruct (assign H m σ) as [[p0 σ'] | e] eqn:Hassign; [| discriminate].
  intros [= <- <-]. exists m, wt, σ. auto.
Qed.

Lemma init_inv (f : list float -> list float) (H : HypothesisSpace)
    (w w' : world G) (self : BiasVariance) :
  __init__ f H w = Ok (self, w') -> _estimate_h_bar f H w = Ok (h_bar self, w').
Proof.
  rewrite init_run. destruct (_estimate_h_bar f H w) as [[p w1] | e]; [| discriminate].
  cbn. now intros [= <- <-].
Qed.
End SideEffects.

(** X3.  Construction and [variance()] overwrite the state of the global
    generator: whatever it was before, after either call it is the state
    that 1000 trials' draws reach from seed 1, the same after both, for
    every family.  [bias2()] returns the state it was called in. *)
Theorem passes_reset_generator {G : Generator} (f : list float -> list float)
    (H : HypothesisSpace) (w w1 : world G) (self : BiasVariance) :
  __init__ f H w = Ok (self, w1) ->
  w1.2 = final_rng G 1000
  /\ (forall (w2 w3 : world G) (v : float),
        variance self w2 = Ok (v, w3) -> w3.2 = final_rng G 1000)
  /\ (forall (w2 w3 : world G) (v : float),
        bias2 self w2 = Ok (v, w3) -> w3 = w2).
Proof.
  intros Hinit. apply init_inv in Hinit.
  apply estimate_h_bar_inv in Hinit as (m & wt & σ & Htrials & _ & _ & Hrng).
  apply h_bar_trials_rng in Htrials.
  split; [congruence |]. split.
  - intros w2 w3 v. rewrite variance_run. unfold bind.
    destruct (variance_trials self 1000 w2) as [[acc wv] | e] eqn:Hv; [| discriminate].
    apply variance_trials_rng in Hv. unfold ret. now intros [= _ <-].
  - intros w2 w3 v. rewrite bias2_run.
    destruct (h_bar self _ w2.1) as [h | e]; [| discriminate]. cbn [result_bind].
    destruct (mean_squared_difference h _) as [b | e]; [| discriminate].
    cbn. now intros [= _ <-].
Qed.

Lemma passes_reset_generator_witness :
  exists (self : BiasVariance) (w1 : world counter_generator),
    __init__ identity_target zero_family empty_world = Ok (self, w1)
    /\ w1.2 = final_rng counter_generator 1000
    /\ (forall (w2 w3 : world counter_generator) (v : float),
          variance self w2 = Ok (v, w3) -> w3.2 = final_rng counter_generator 1000)
    /\ (forall (w2 w3 : world counter_generator) (v : float),
          bias2 self w2 = Ok (v, w3) -> w3 = w2).
Proof.
  destruct (zero_family_init identity_target empty_world (fun x => eq_refl))
    as (self & m & σ & Hinit & _).
  exists self, (σ, final_rng counter_generator 1000).
  split; [exact Hinit |].
  exact (passes_reset_generator identity_target zero_family empty_world _ self Hinit).
Defined.

(** X4.  For every family, the running sum of [_estimate_h_bar] is the
    array object that the first call of [train] returned, not a copy:
    the later vectors are added into that array, it is divided by
    1000.0 in place, and the mean hypothesis is [assign] applied to
    it. *)
Theorem mean_hypothesis_bound_to_first_array {G : Generator}
    (f : list float -> list float) (H : HypothesisSpace) (w w1 : world G)
    (self : BiasVariance) :
  __init__ f H w = Ok (self, w1) ->
  exists (X y summed : list float) (m : loc) (σ1 σ2 : store),
    dataset f (trial_draws (rng_seed G 1)).1 = Ok (X, y)
    /\ train H X y w.1 = Ok (m, σ1)
    /\ σ2 !! m = Some summed
    /\ assign H m (<[m := map (fun x => (x / F64.of_Z 1000)%flt) summed]> σ2)
       = Ok (h_bar self, w1.1).
Proof.
  intros Hinit. apply init_inv in Hinit.
  apply estimate_h_bar_inv in Hinit as (m & wt & σ & Htrials & Hdiv & Hassign & _).
  change 1000%nat with (S 999) in Htrials. rewrite h_bar_trials_first in Htrials.
  destruct (dataset f _) as [[X y] | e] eqn:Hdata; [| discriminate].
  cbn [result_bind] in Htrials.
  destruct (train H X y w.1) as [[m0 σ1] | e] eqn:Htrain; [| discriminate].
  pose proof (h_bar_loop_accumulator f H _ _ _ _ _ Htrials) as Hacc.
  injection Hacc as ->.
  unfold np_idiv, bind, load, store_at in Hdiv.
  destruct (wt.1 !! m0) as [summed |] eqn:Hsum; [| discriminate].
  injection Hdiv as <-.
  exists X, y, summed, m0, σ1, wt.1.
  split; [reflexivity |]. split; [exact Htrain |]. split; [exact Hsum | exact Hassign].
Qed.

Lemma mean_hypothesis_bound_to_first_array_witness :
  exists (self : BiasVariance) (w1 : world counter_generator),
    __init__ identity_target zero_family empty_world = Ok (self, w1)
    /\ exists (X y summed : list float) (m : loc) (σ1 σ2 : store),
         dataset identity_target (trial_draws (rng_seed counter_generator 1)).1
         = Ok (X, y)
         /\ train zero_family X y empty_world.1 = Ok (m, σ1)
         /\ σ2 !! m = Some summed
         /\ assign zero_family m
              (<[m := map (fun x => (x / F64.of_Z 1000)%flt) summed]> σ2)
            = Ok (h_bar self, w1.1).
Proof.
  destruct (zero_family_init identity_target empty_world (fun x => eq_refl))
    as (self & m & σ & Hinit & _).
  exists self, (σ, final_rng counter_generator 1000).
  split; [exact Hinit |].
  exact (mean_hypothesis_bound_to_first_array identity_target zero_family
           empty_world _ self Hinit).
Defined.

(** ** The parameter vector of the degree-10 families *)

Lemma degree10_predictor_reads (model : LinearModel) (x coef : list float) (σ : store) :
  σ !! coef_ model = Some coef ->
  degree10_predictor model x σ = degree10_predictions coef (intercept_ model) x.
Proof.
  intros Hcoef. unfold degree10_predictor, degree10_predictions, np_reshape_column, predict.
  destruct (fit_transform 10 x) as [poly_x | e]; [| reflexivity].
  cbn [result_bind]. now rewrite Hcoef.
Qed.

(** X5.  Binding the same array twice loses the intercept: the first
    [assign] of either degree-10 family takes the intercept from slot 0
    and zeroes the slot, so the second [assign] of that array returns a
    predictor whose intercept is 0.0, whatever the vector held; the
    second call changes no array. *)
Theorem assign_twice_loses_intercept (LinearRegression : Trainer)
    (Ridge : float -> Trainer) (H : HypothesisSpace) (params : loc)
    (v : list float) (σ : store) :
  H = UnRegularized10thModel LinearRegression \/ H = Regularized10thModel Ridge ->
  σ !! params = Some v -> v <> [] ->
  exists σ1 : store,
    assign H params σ
    = Ok (degree10_predictor {| coef_ := params; intercept_ := hd F64.zero v |}, σ1)
    /\ assign H params σ1
       = Ok (degree10_predictor {| coef_ := params; intercept_ := F64.zero |}, σ1).
Proof.
  intros HH Hv Hne. exists (<[params := <[0%nat := F64.zero]> v]> σ).
  split; [now apply (degree10_assign_spec LinearRegression Ridge) |].
  rewrite (degree10_assign_spec LinearRegression Ridge H params
             (<[0%nat := F64.zero]> v) _ HH (lookup_insert_eq _ _ _)).
  - destruct v as [| x0 rest]; [congruence |]. cbn [hd]. f_equal. f_equal.
    now rewrite insert_insert_eq.
  - destruct v; [congruence | discriminate].
Qed.

Lemma assign_twice_loses_intercept_witness :
  ({[1%positive := [F64.of_Z 3; F64.of_Z 5]]} : store) !! 1%positive
    = Some [F64.of_Z 3; F64.of_Z 5]
  /\ exists σ1 : store,
       assign (UnRegularized10thModel first_label_trainer) 1%positive
         {[1%positive := [F64.of_Z 3; F64.of_Z 5]]}
       = Ok (degree10_predictor
               {| coef_ := 1%positive;
                  intercept_ := hd F64.zero [F64.of_Z 3; F64.of_Z 5] |}, σ1)
       /\ assign (UnRegularized10thModel first_label_trainer) 1%positive σ1
          = Ok (degree10_predictor {| coef_ := 1%positive; intercept_ := F64.zero |}, σ1).
Proof.
  split; [reflexivity |].
  apply (assign_twice_loses_intercept first_label_trainer (fun _ => first_label_trainer)
           _ _ [F64.of_Z 3; F64.of_Z 5]).
  - left. reflexivity.
  - reflexivity.
  - discriminate.
Defined.

(** X6.  The predictor that [assign] returns keeps no copy of the
    coefficients: at each call it predicts with what the array [params]
    holds at that moment and with the intercept taken at binding time.
    Arrays other than [params] have no influence on it. *)
Theorem predictor_reads_array_at_call (LinearRegression : Trainer)
    (Ridge : float -> Trainer) (H : HypothesisSpace) (params : loc)
    (v : list float) (σ : store) :
  H = UnRegularized10thModel LinearRegression \/ H = Regularized10thModel Ridge ->
  σ !! params = Some v -> v <> [] ->
  exists (p : Predictor) (σ1 : store),
    assign H params σ = Ok (p, σ1)
    /\ (forall (x coef : list float) (σ2 : store),
          σ2 !! params = Some coef ->
          p x σ2 = degree10_predictions coef (hd F64.zero v) x)
    /\ (forall (x : list float) (σ2 σ3 : store),
          σ2 !! params = σ3 !! params -> p x σ2 = p x σ3).
Proof.
  intros HH Hv Hne. eexists _, _.
  split; [exact (degree10_assign_spec LinearRegression Ridge H params v σ HH Hv Hne) |].
  split.
  - intros x coef σ2 Hcoef. now apply degree10_predictor_reads.
  - intros x σ2 σ3 Heq. unfold degree10_predictor, predict. cbn [coef_].
    now rewrite Heq.
Qed.

Lemma predictor_reads_array_at_call_witness :
  ({[1%positive := [F64.of_Z 3; F64.of_Z 5]]} : store) !! 1%positive
    = Some [F64.of_Z 3; F64.of_Z 5]
  /\ exists (p : Predictor) (σ1 : store),
       assign (Regularized10thModel (fun _ => first_label_trainer)) 1%positive
         {[1%positive := [F64.of_Z 3; F64.of_Z 5]]} = Ok (p, σ1)
       /\ (forall (x coef : list float) (σ2 : store),
             σ2 !! 1%positive = Some coef ->
             p x σ2
             = degree10_predictions coef (hd F64.zero [F64.of_Z 3; F64.of_Z 5]) x)
       /\ (forall (x : list float) (σ2 σ3 : store),
             σ2 !! 1%positive = σ3 !! 1%positive -> p x σ2 = p x σ3).
Proof.
  split; [reflexivity |].
  apply (predictor_reads_array_at_call first_label_trainer
           (fun _ => first_label_trainer) _ _ [F64.of_Z 3; F64.of_Z 5]).
  - right. reflexivity.
  - reflexivity.
  - discriminate.
Defined.

Lemma degree10_params_inv (T : Trainer) (X y v : list float) :
  degree10_params T X y = Ok v ->
  exists (c : float) (rest : list float),
    (T (map (poly_row 10) X) y).1 = c :: rest
    /\ v = (T (map (poly_row 10) X) y).2 :: rest.
Proof.
  unfold degree10_params.
  destruct (fit_transform 10 X) as [A | e] eqn:EA; cbn [result_bind]; [| discriminate].
  apply fit_transform_inv in EA as [_ ->].
  destruct (fit T _ y) as [[coef intercept] | e] eqn:Er; cbn [result_bind];
    [| discriminate].
  apply fit_inv in Er as [Er _]. rewrite <- Er. cbn [fst snd].
  destruct coef as [| c rest]; [discriminate |].
  intros [= <-]. eauto.
Qed.

(** X7.  [train] followed by [assign]: [train] returns a new array that
    holds the solver's intercept in slot 0 and the solver's coefficients
    1 to 10 in the other slots, every older array unchanged; the solver's
    coefficient 0 is overwritten.  [assign] of that array returns the
    predictor of the linear model with that intercept, coefficient 0 for
    the constant basis function and the solver's other coefficients. *)
Theorem train_then_assign (LinearRegression : Trainer) (Ridge : float -> Trainer)
    (H : HypothesisSpace) (T : Trainer) (X y : list float) (σ σ1 : store)
    (params : loc) :
  (H = UnRegularized10thModel LinearRegression /\ T = LinearRegression)
  \/ (H = Regularized10thModel Ridge /\ T = Ridge (F64.of_Z 2)) ->
  train H X y σ = Ok (params, σ1) ->
  exists (c : float) (rest : list float) (p : Predictor) (σ2 : store),
    (T (map (poly_row 10) X) y).1 = c :: rest
    /\ (params ∉ dom σ)
    /\ (forall l : loc, l <> params -> σ1 !! l = σ !! l)
    /\ σ1 !! params = Some ((T (map (poly_row 10) X) y).2 :: rest)
    /\ assign H params σ1 = Ok (p, σ2)
    /\ σ2 !! params = Some (F64.zero :: rest)
    /\ forall (x : list float),
         p x σ2
         = degree10_predictions (F64.zero :: rest) (T (map (poly_row 10) X) y).2 x.
Proof.
  intros HH Htrain.
  assert (H = UnRegularized10thModel LinearRegression \/ H = Regularized10thModel Ridge)
    as HH' by (destruct HH as [[-> _] | [-> _]]; auto).
  assert (train H X y σ = result_bind (degree10_params T X y) (fun v => alloc v σ))
    as Hpure.
  { destruct HH as [[-> ->] | [-> ->]];
      [apply degree10_train_pure | apply ridge_train_pure]. }
  rewrite Hpure in Htrain.
  destruct (degree10_params T X y) as [v | e] eqn:Ev; [| discriminate].
  cbn in Htrain. injection Htrain as <- <-.
  apply degree10_params_inv in Ev as (c & rest & Hcoef & ->).
  exists c, rest. eexists _, _.
  split; [exact Hcoef |]. split; [apply is_fresh |].
  split; [intros l Hl; now apply lookup_insert_ne |].
  split; [apply lookup_insert_eq |].
  split.
  { apply (degree10_assign_spec LinearRegression Ridge H _ _ _ HH'
             (lookup_insert_eq _ _ _)). discriminate. }
  split; [apply lookup_insert_eq |].
  intros x. apply degree10_predictor_reads. cbn [coef_]. apply lookup_insert_eq.
Qed.

Lemma train_then_assign_witness :
  train (UnRegularized10thModel first_label_trainer) [F64.zero] [F64.of_Z 1] ∅
  = Ok (1%positive, {[1%positive := F64.of_Z 1 :: repeat F64.zero 10]})
  /\ exists (c : float) (rest : list float) (p : Predictor) (σ2 : store),
       (first_label_trainer (map (poly_row 10) [F64.zero]) [F64.of_Z 1]).1 = c :: rest
       /\ (1%positive ∉ dom (∅ : store))
       /\ (forall l : loc, l <> 1%positive ->
             ({[1%positive := F64.of_Z 1 :: repeat F64.zero 10]} : store) !! l
             = (∅ : store) !! l)
       /\ ({[1%positive := F64.of_Z 1 :: repeat F64.zero 10]} : store) !! 1%positive
          = Some ((first_label_trainer (map (poly_row 10) [F64.zero]) [F64.of_Z 1]).2
                  :: rest)
       /\ assign (UnRegularized10thModel first_label_trainer) 1%positive
            {[1%positive := F64.of_Z 1 :: repeat F64.zero 10]} = Ok (p, σ2)
       /\ σ2 !! 1%positive = Some (F64.zero :: rest)
       /\ forall (x : list float),
            p x σ2
            = degree10_predictions (F64.zero :: rest)
                (first_label_trainer (map (poly_row 10) [F64.zero]) [F64.of_Z 1]).2 x.
Proof.
  split; [vm_compute; reflexivity |].
  apply (train_then_assign first_label_trainer (fun _ => first_label_trainer)
           _ first_label_trainer [F64.zero] [F64.of_Z 1] ∅).
  - left. split; reflexivity.
  - vm_compute. reflexivity.
Defined.

Lemma mul_zero_r (r : float) :
  F64.is_finite r = true -> exists s : bool, (r * F64.zero)%flt = S754_zero s.
Proof.
  destruct r as [s | s | | s m e]; try discriminate; intros _; eexists; reflexivity.
Qed.

Lemma zero_add_zero (s : bool) : (F64.zero + S754_zero s)%flt = F64.zero.
Proof. now destruct s. Qed.

Lemma eqb_refl (c : float) : F64.is_nan c = false -> F64.eqb c c = true.
Proof.
  destruct c as [s | s | | s m e]; try discriminate; intros _;
    [reflexivity | now destruct s |].
  unfold F64.eqb, SFeqb, SFcompare.
  destruct s; now rewrite Z.compare_refl, Pos.compare_cont_refl.
Qed.

Lemma zero_add_eqb (c : float) :
  F64.is_nan c = false -> F64.eqb (F64.zero + c)%flt c = true.
Proof.
  destruct c as [s | s | | s m e]; try discriminate; intros _.
  - now destruct s.
  - now destruct s.
  - change (F64.zero + S754_finite s m e)%flt with (S754_finite s m e).
    now apply eqb_refl.
Qed.

Lemma dot_zero_coefficients (row : list float) (n : nat) :
  forallb F64.is_finite row = true -> dot row (repeat F64.zero n) = F64.zero.
Proof.
  unfold dot. revert n. induction row as [| r row IH]; intros n Hrow; [reflexivity |].
  destruct n as [| n]; [reflexivity |].
  cbn [forallb] in Hrow. apply andb_prop in Hrow as [Hr Hrow].
  cbn [repeat zip_with fold_left].
  destruct (mul_zero_r r Hr) as [s ->]. rewrite zero_add_zero. now apply IH.
Qed.

(** X8.  With all ten coefficients zero the predictor is constant: for
    a vector [c, 0, ..., 0] with [c] not NaN, the predictor that [assign]
    of either degree-10 family returns maps every input of length m >= 1
    whose powers up to the tenth are finite to m outputs that all
    compare equal to [c]. *)
Theorem zero_coefficients_predict_intercept (LinearRegression : Trainer)
    (Ridge : float -> Trainer) (H : HypothesisSpace) (params : loc) (c : float)
    (σ : store) :
  H = UnRegularized10thModel LinearRegression \/ H = Regularized10thModel Ridge ->
  σ !! params = Some (c :: repeat F64.zero 10) -> F64.is_nan c = false ->
  exists (p : Predictor) (σ1 : store),
    assign H params σ = Ok (p, σ1)
    /\ forall x : list float,
         (1 <= length x)%nat -> expansion_finite x = true ->
         exists out : list float,
           p x σ1 = Ok out /\ length out = length x
           /\ Forall (fun o => F64.eqb o c = true) out.
Proof.
  intros HH Hv Hc. eexists _, _.
  split.
  { refine (degree10_assign_spec LinearRegression Ridge H params _ σ HH Hv _).
    discriminate. }
  intros x Hx Hfin.
  rewrite (degree10_predictor_reads _ x (F64.zero :: repeat F64.zero 10))
    by (cbn [coef_]; apply lookup_insert_eq).
  cbn [intercept_ hd]. unfold degree10_predictions.
  assert (x <> []) as Hne by (destruct x; [cbn in Hx; lia | discriminate]).
  rewrite (fit_transform_ok x Hne Hfin). cbn [result_bind].
  rewrite check_array_ok; [| now destruct x | exact Hfin]. cbn [result_bind].
  assert (forallb (fun row => bool_decide (length row
                                = length (F64.zero :: repeat F64.zero 10)))
            (map (poly_row 10) x) = true) as ->.
  { apply forallb_forall. intros row [v [<- _]]%in_map_iff.
    apply bool_decide_eq_true. now rewrite poly_row_length. }
  eexists. split; [reflexivity |]. split; [now rewrite !length_map |].
  apply Forall_map, Forall_map, Forall_forall. intros v Hv'.
  unfold expansion_finite in Hfin. rewrite forallb_forall in Hfin.
  assert (forallb F64.is_finite (poly_row 10 v) = true) as Hrow.
  { apply Hfin, in_map_iff. exists v. split; [reflexivity |].
    now apply list_elem_of_In. }
  change (F64.zero :: repeat F64.zero 10) with (repeat F64.zero 11).
  rewrite (dot_zero_coefficients _ 11 Hrow). now apply zero_add_eqb.
Qed.

Lemma zero_coefficients_predict_intercept_witness :
  ({[1%positive := F64.of_Z 3 :: repeat F64.zero 10]} : store) !! 1%positive
    = Some (F64.of_Z 3 :: repeat F64.zero 10)
  /\ F64.is_nan (F64.of_Z 3) = false
  /\ exists (p : Predictor) (σ1 : store),
       assign (UnRegularized10thModel first_label_trainer) 1%positive
         {[1%positive := F64.of_Z 3 :: repeat F64.zero 10]} = Ok (p, σ1)
       /\ forall x : list float,
            (1 <= length x)%nat -> expansion_finite x = true ->
            exists out : list float,
              p x σ1 = Ok out /\ length out = length x
              /\ Forall (fun o => F64.eqb o (F64.of_Z 3) = true) out.
Proof.
  split; [reflexivity |]. split; [reflexivity |].
  apply (zero_coefficients_predict_intercept first_label_trainer
           (fun _ => first_label_trainer)).
  - left. reflexivity.
  - reflexivity.
  - reflexivity.
Defined.

(** ** Calls after construction *)

(** X9.  With a stateless family the estimates can be asked for again:
    after a call of [variance()] that returned [v], [bias2()] has the
    outcome it had before the call, and every further call of
    [variance()], in whatever generator state, returns [v] again.  The
    in-place changes that [assign] makes in the trials do not reach the
    mean hypothesis. *)
Theorem estimates_repeatable {G : Generator} (f : list float -> list float)
    (H : HypothesisSpace) (M : PureModel) (w w1 w2 : world G) (self : BiasVariance)
    (g : rng_state G) (v : float) :
  Stateless H M -> __init__ f H w = Ok (self, w1) ->
  variance self (w1.1, g) = Ok (v, w2) ->
  outcome (bias2 self w2) = outcome (bias2 self w1)
  /\ forall g' : rng_state G, outcome (variance self (w2.1, g')) = Ok v.
Proof.
  intros HS Hinit Hvar.
  destruct (init_constructed f H M w w1 self HS Hinit) as (mean & m & _ & _ & Hc).
  pose proof (variance_spec f H M HS self mean m (w1.1, g) Hc) as Hspec.
  destruct (variance_estimator G f M mean) as [v0 | e] eqn:Hest; [| congruence].
  destruct Hspec as (σ' & Hrun & Hc'). rewrite Hrun in Hvar.
  injection Hvar as <- <-. split.
  - rewrite (bias2_spec f H M self mean m (σ', final_rng G 1000) Hc'),
      (bias2_spec f H M self mean m w1 Hc).
    unfold outcome. now destruct (squared_bias f M grid_points mean).
  - intros g'. cbn [fst].
    pose proof (variance_spec f H M HS self mean m (σ', g') Hc') as Hagain.
    rewrite Hest in Hagain. destruct Hagain as (σ'' & -> & _). reflexivity.
Qed.

Lemma zero_model_variance {G : Generator} (f : list float -> list float) (n : nat)
    (g : rng_state G) :
  (forall x : list float, length (f x) = length x) ->
  exists vars : list float,
    result_mapM (trial_variance zero_model [F64.zero])
      (map (dataset f) (simulate n g).1) = Ok vars.
Proof.
  intros Hf. revert g. induction n as [| n IH]; intros g; [now eexists |].
  rewrite simulate_S. cbn [fst map result_mapM].
  destruct (trial_draws_length g) as [HX Hnoise].
  rewrite dataset_same_length by (rewrite Hf; congruence).
  destruct (IH (trial_draws g).2) as [vars ->].
  unfold trial_variance, mean_squared_difference. cbn [result_bind fitted rebound
    predictions zero_model].
  rewrite np_subtract_same_length by reflexivity. cbn. now eexists.
Qed.

Lemma zero_family_variance {G : Generator} (f : list float -> list float)
    (self : BiasVariance) (m : loc) (w : world G) :
  (forall x : list float, length (f x) = length x) ->
  constructed f zero_family zero_model self [F64.zero] m w.1 ->
  exists (v : float) (w' : world G), variance self w = Ok (v, w').
Proof.
  intros Hf Hc.
  pose proof (variance_spec f zero_family zero_model zero_family_stateless self
                [F64.zero] m w Hc) as Hspec.
  unfold variance_estimator, datasets in Hspec.
  destruct (zero_model_variance f 1000 (rng_seed G 1) Hf) as [vars Hvars].
  rewrite Hvars in Hspec. cbn [result_map result_bind] in Hspec.
  destruct Hspec as (σ' & -> & _). eauto.
Qed.

Lemma first_label_model_variance {G : Generator} (f : list float -> list float)
    (mean : list float) (n : nat) (g : rng_state G) :
  (forall x : list float, length (f x) = length x) ->
  exists vars : list float,
    result_mapM (trial_variance first_label_model mean)
      (map (dataset f) (simulate n g).1) = Ok vars.
Proof.
  intros Hf. revert g. induction n as [| n IH]; intros g; [now eexists |].
  rewrite simulate_S. cbn [fst map result_mapM].
  destruct (trial_draws_length g) as [HX Hnoise].
  rewrite dataset_same_length by (rewrite Hf; congruence).
  destruct (IH (trial_draws g).2) as [vars ->].
  unfold trial_variance, mean_squared_difference. cbn [result_bind fitted rebound
    predictions first_label_model].
  rewrite np_subtract_same_length by now rewrite !length_map.
  cbn. now eexists.
Qed.

Lemma first_label_family_variance {G : Generator} (f : list float -> list float)
    (self : BiasVariance) (mean : list float) (m : loc) (w : world G) :
  (forall x : list float, length (f x) = length x) ->
  constructed f first_label_family first_label_model self mean m w.1 ->
  exists (v : float) (w' : world G), variance self w = Ok (v, w').
Proof.
  intros Hf Hc.
  pose proof (variance_spec f first_label_family first_label_model
                first_label_family_stateless self mean m w Hc) as Hspec.
  unfold variance_estimator, datasets in Hspec.
  destruct (first_label_model_variance f mean 1000 (rng_seed G 1) Hf) as [vars Hvars].
  rewrite Hvars in Hspec. cbn [result_map result_bind] in Hspec.
  destruct Hspec as (σ' & -> & _). eauto.
Qed.

Lemma estimates_repeatable_witness :
  Stateless zero_family zero_model
  /\ exists (self : BiasVariance) (w1 w2 : world counter_generator) (v : float),
       __init__ identity_target zero_family empty_world = Ok (self, w1)
       /\ variance self (w1.1, rng_seed counter_generator 5) = Ok (v, w2)
       /\ outcome (bias2 self w2) = outcome (bias2 self w1)
       /\ forall g' : rng_state counter_generator,
            outcome (variance self (w2.1, g')) = Ok v.
Proof.
  split; [exact zero_family_stateless |].
  destruct (zero_family_init identity_target empty_world (fun x => eq_refl))
    as (self & m & σ & Hinit & Hc).
  destruct (zero_family_variance (G := counter_generator) identity_target self m
              (σ, rng_seed counter_generator 5) (fun x => eq_refl) Hc) as (v & w2 & Hvar).
  exists self, (σ, final_rng counter_generator 1000), w2, v.
  split; [exact Hinit |]. split; [exact Hvar |].
  exact (estimates_repeatable identity_target zero_family zero_model empty_world
           _ w2 self (rng_seed counter_generator 5) v zero_family_stateless Hinit Hvar).
Defined.

Section Frame.
Context {G : Generator}.
Variable H : HypothesisSpace.
Variable M : PureModel.
Hypothesis HS : Stateless H M.

Lemma variance_estimate_frame (self : BiasVariance) (acc acc' X y : list float)
    (w w' : world G) :
  hypothesis_class self = H ->
  variance_estimate self acc X y w = Ok (acc', w') ->
  forall l : loc, l ∈ dom w.1 -> w'.1 !! l = w.1 !! l /\ l ∈ dom w'.1.
Proof.
  intros HH. unfold variance_estimate. rewrite bind_on_store, HH.
  rewrite (train_fresh H M HS).
  destruct (fitted M X y) as [v | e]; [| discriminate]. cbn [result_bind alloc].
  rewrite bind_on_store. cbn [fst snd].
  pose proof (assign_in_place H M HS (fresh (dom w.1)) v _ (lookup_insert_eq w.1 _ v))
    as Hassign.
  destruct (rebound M v) as [v' | e]; [| now rewrite Hassign].
  destruct Hassign as (p & -> & _). rewrite insert_insert_eq.
  rewrite bind_call. cbn [fst snd].
  destruct (p X _) as [t | e]; [| discriminate].
  rewrite bind_call. cbn [fst snd].
  destruct (h_bar self X _) as [h | e]; [| discriminate].
  rewrite bind_of_result.
  destruct (np_subtract t h) as [d | e]; [| discriminate].
  unfold ret. intros [= _ <-] l Hl. cbn [fst]. split.
  - apply lookup_insert_ne. intros <-. now apply (is_fresh (dom w.1)).
  - rewrite dom_insert_L. apply elem_of_union. now right.
Qed.

Lemma variance_loop_frame (self : BiasVariance) (l : list nat) :
  hypothesis_class self = H ->
  forall (acc acc' : list float) (w w' : world G),
  for_each l (variance_trial self) acc w = Ok (acc', w') ->
  forall l0 : loc, l0 ∈ dom w.1 -> w'.1 !! l0 = w.1 !! l0 /\ l0 ∈ dom w'.1.
Proof.
  intros HH. induction l as [| i l IH]; intros acc acc' w w'.
  - cbn. unfold ret. intros [= _ <-]. auto.
  - cbn [for_each]. unfold bind. destruct w as [σ g]. rewrite variance_trial_run.
    destruct (dataset _ _) as [[X y] | e]; [| discriminate]. cbn [result_bind].
    destruct (variance_estimate self acc X y _) as [[acc1 w1] | e] eqn:E;
      [| discriminate].
    intros Hrest l0 Hl0.
    destruct (variance_estimate_frame self _ _ _ _ _ _ HH E l0 Hl0) as [Heq Hdom].
    destruct (IH _ _ _ _ Hrest l0 Hdom) as [Heq' Hdom'].
    split; [now rewrite Heq', Heq | exact Hdom'].
Qed.
End Frame.

(** X10.  With a stateless family, neither construction nor
    [variance()] changes or removes an array that existed before the
    call: the additions, the division and the zeroing that they make in
    place only ever hit arrays that the same call created. *)
Theorem passes_keep_existing_arrays {G : Generator} (f : list float -> list float)
    (H : HypothesisSpace) (M : PureModel) (w w1 : world G) (self : BiasVariance) :
  Stateless H M -> __init__ f H w = Ok (self, w1) ->
  (forall l : loc, l ∈ dom w.1 -> w1.1 !! l = w.1 !! l)
  /\ (forall (w2 w3 : world G) (v : float),
        variance self w2 = Ok (v, w3) ->
        forall l : loc, l ∈ dom w2.1 -> w3.1 !! l = w2.1 !! l).
Proof.
  intros HS Hinit. split.
  - pose proof (estimate_h_bar_spec f H M HS w) as Hspec.
    apply init_inv in Hinit.
    destruct (mean_parameters G f M) as [mean | e]; [| congruence].
    destruct Hspec as (m & σ & Hm & Hfresh & Hframe & Hrun).
    rewrite Hrun in Hinit. unfold on_store in Hinit. cbn [fst snd] in Hinit.
    pose proof (assign_in_place H M HS m mean σ Hm) as Hassign.
    destruct (rebound M mean) as [mean' | e]; [| now rewrite Hassign in Hinit].
    destruct Hassign as (p & Hassign & _). rewrite Hassign in Hinit.
    injection Hinit as _ <-. cbn [fst]. intros l Hl.
    rewrite lookup_insert_ne; [now apply Hframe |]. intros <-. contradiction.
  - destruct (init_fields f H w w1 self Hinit) as (_ & HH & _).
    intros w2 w3 v. rewrite variance_run. unfold variance_trials.
    rewrite bind_bind. unfold np_random_seed. rewrite bind_on_rng. cbn [fst snd].
    unfold bind.
    destruct (for_each _ _ _ _) as [[acc wv] | e] eqn:E; [| discriminate].
    unfold ret. intros [= _ <-] l Hl.
    now destruct (variance_loop_frame H M HS self _ HH _ _ _ _ E l Hl).
Qed.

Lemma passes_keep_existing_arrays_witness :
  Stateless first_label_family first_label_model
  /\ exists (self : BiasVariance) (w1 w3 : world counter_generator) (v : float),
       __init__ identity_target first_label_family populated_world = Ok (self, w1)
       /\ variance self w1 = Ok (v, w3)
       /\ populated_world.1 !! 3%positive = Some [F64.of_Z 1; F64.of_Z 2]
       /\ w1.1 !! 3%positive = Some [F64.of_Z 1; F64.of_Z 2]
       /\ w3.1 !! 3%positive = Some [F64.of_Z 1; F64.of_Z 2].
Proof.
  split; [exact first_label_family_stateless |].
  destruct (first_label_family_init identity_target populated_world (fun x => eq_refl))
    as (self & mean & m & σ & Hinit & Hc).
  destruct (first_label_family_variance (G := counter_generator) identity_target self
              mean m (σ, final_rng counter_generator 1000) (fun x => eq_refl) Hc)
    as (v & w3 & Hvar).
  destruct (passes_keep_existing_arrays identity_target first_label_family
              first_label_model populated_world _ self first_label_family_stateless
              Hinit) as [Hinit_frame Hvar_frame].
  assert (H0 : populated_world.1 !! 3%positive = Some [F64.of_Z 1; F64.of_Z 2])
    by apply lookup_singleton_eq.
  assert (H1 : σ !! 3%positive = Some [F64.of_Z 1; F64.of_Z 2]).
  { rewrite <- H0. apply (Hinit_frame 3%positive). now apply elem_of_dom_2 in H0. }
  exists self, (σ, final_rng counter_generator 1000), w3, v.
  split; [exact Hinit |]. split; [exact Hvar |]. split; [exact H0 |].
  split; [exact H1 |].
  rewrite <- H1. apply (Hvar_frame _ w3 v Hvar 3%positive).
  now apply elem_of_dom_2 in H1.
Defined.

(** ** The degree-10 families in the estimator *)

(** X11.  Both degree-10 families are stateless, for every solver that
    returns one coefficient per column: [train] puts into a new array a
    vector of length 11 that depends on the data only, and [assign] only
    zeroes slot 0 of the array it is given and returns a predictor whose
    output is determined by the vector and the input.  The results on
    stateless families therefore hold of the two families of the
    notebook. *)
Theorem degree10_families_stateless (LinearRegression : Trainer)
    (Ridge : float -> Trainer) :
  coef_per_column LinearRegression -> coef_per_column (Ridge (F64.of_Z 2)) ->
  Stateless (UnRegularized10thModel LinearRegression) (degree10_model LinearRegression)
  /\ Stateless (Regularized10thModel Ridge) (degree10_model (Ridge (F64.of_Z 2))).
Proof.
  intros HLR HRidge. split; [now apply degree10_stateless | now apply ridge_stateless].
Qed.

Lemma degree10_families_stateless_witness :
  coef_per_column first_label_trainer
  /\ coef_per_column ((fun _ : float => first_label_trainer) (F64.of_Z 2))
  /\ Stateless (UnRegularized10thModel first_label_trainer)
       (degree10_model first_label_trainer)
  /\ Stateless (Regularized10thModel (fun _ => first_label_trainer))
       (degree10_model ((fun _ : float => first_label_trainer) (F64.of_Z 2))).
Proof.
  split; [exact first_label_trainer_shape |].
  split; [exact first_label_trainer_shape |].
  exact (degree10_families_stateless first_label_trainer (fun _ => first_label_trainer)
           first_label_trainer_shape first_label_trainer_shape).
Defined.

(** X14.  When a predictor returns and when it raises: the predictor
    that [assign] of either degree-10 family returns for a vector of
    length 11 returns, one output per input, exactly on the non-empty
    inputs whose powers up to the tenth are all finite; on the empty
    array, on NaN and infinities, and on inputs whose tenth power
    overflows, it raises [ValueError]. *)
Theorem predictor_returns_iff_valid (LinearRegression : Trainer)
    (Ridge : float -> Trainer) (H : HypothesisSpace) (params : loc)
    (v x : list float) (σ : store) :
  H = UnRegularized10thModel LinearRegression \/ H = Regularized10thModel Ridge ->
  σ !! params = Some v -> length v = 11%nat ->
  exists (p : Predictor) (σ' : store),
    assign H params σ = Ok (p, σ')
    /\ if bool_decide (x <> []) && expansion_finite x
       then exists out : list float, p x σ' = Ok out /\ length out = length x
       else p x σ' = Raise ValueError.
Proof.
  intros HH Hv Hlen. eexists _, _. split.
  { refine (degree10_assign_spec LinearRegression Ridge H params v σ HH Hv _).
    now destruct v. }
  destruct (bool_decide (x <> [])) eqn:Hx; cbn [andb].
  - apply bool_decide_eq_true in Hx.
    destruct (expansion_finite x) eqn:Hfin.
    + apply (degree10_predictor_length _ (<[0%nat := F64.zero]> v));
        [cbn [coef_]; apply lookup_insert_eq | now rewrite length_insert
        | exact Hx | exact Hfin].
    + unfold degree10_predictor, np_reshape_column.
      destruct (fit_transform 10 x) as [A | e] eqn:EA; cbn [result_bind];
        [| now rewrite (fit_transform_error _ _ _ EA)].
      apply fit_transform_inv in EA as [_ ->].
      unfold predict. cbn [coef_]. rewrite lookup_insert_eq.
      destruct (check_array _) as [[] | e] eqn:Ec; cbn [result_bind];
        [| now rewrite (check_array_error _ _ Ec)].
      apply check_array_inv in Ec as [_ Ec]. unfold expansion_finite in Hfin.
      congruence.
  - apply bool_decide_eq_false in Hx.
    assert (x = []) as -> by (destruct x; [reflexivity | exfalso; apply Hx; discriminate]).
    reflexivity.
Qed.

Lemma predictor_returns_iff_valid_witness :
  ({[1%positive := repeat (F64.of_Z 1) 11]} : store) !! 1%positive
    = Some (repeat (F64.of_Z 1) 11)
  /\ length (repeat (F64.of_Z 1) 11) = 11%nat
  /\ exists (p : Predictor) (σ' : store),
       assign (UnRegularized10thModel first_label_trainer) 1%positive
         {[1%positive := repeat (F64.of_Z 1) 11]} = Ok (p, σ')
       /\ if bool_decide ([S754_infinity false] <> []) && expansion_finite [S754_infinity false]
          then exists out : list float,
                 p [S754_infinity false] σ' = Ok out
                 /\ length out = length [S754_infinity false]
          else p [S754_infinity false] σ' = Raise ValueError.
Proof.
  split; [reflexivity |]. split; [reflexivity |].
  apply (predictor_returns_iff_valid first_label_trainer (fun _ => first_label_trainer)
           _ _ (repeat (F64.of_Z 1) 11)).
  - left. reflexivity.
  - reflexivity.
  - reflexivity.
Defined.
